(** * blogger_bot_project: the chat handlers, embedded and verified

    Two programs live in the repository.

    - [TeleBot] embeds the handlers of [src/bot.py] (pyTelegramBotAPI):
      [send_welcome], [callback_query], [process_movie_request] and
      [process_movie_rating_request].  [src/utils.py] holds a second copy of
      the same four handlers; it differs only in handing the bot and the
      pyrogram client to the upload helpers, which the embedding takes as
      parameters anyway.
    - [Blogger] embeds [src/main.py] (python-telegram-bot and the Google
      client): [authenticate_google_account], [authenticate] and
      [post_to_blogger].

    Handlers are stateful and may raise, so they are written in a small
    state-and-exception monad over an explicit world: what the transport
    delivered, what was logged, which external adapters were called, and the
    stores the code keeps.  The external services (movie API, clock, file
    transfer, OAuth, Blogger) are Section variables. *)

From Stdlib Require Import String Ascii List ZArith Lia Bool.
From stdpp Require Import base option list gmap strings.
Import ListNotations.

#[local] Open Scope string_scope.
#[local] Open Scope list_scope.

(** ** Python values shared by the two programs *)

(** The exceptions the handlers can meet.  All of them derive from Python's
    [Exception], so a bare [except Exception] catches every one. *)
Inductive exn : Type :=
| HttpError (rendered : string)   (* googleapiclient.errors.HttpError *)
| KeyError (key : string)         (* d[k] on a dict without k *)
| NameError (name : string)       (* a global name that is not bound *)
| ApiException (rendered : string) (* the chat transport refused a call *)
| OtherError (rendered : string). (* any other subclass of Exception *)

(** [str(e)], as an f-string renders the exception. *)
Definition exn_str (e : exn) : string :=
  match e with
  | HttpError r => r
  | KeyError k => "'" +:+ k +:+ "'"
  | NameError n => "name '" +:+ n +:+ "' is not defined"
  | ApiException r => r
  | OtherError r => r
  end.

Definition is_HttpError (e : exn) : bool :=
  match e with HttpError _ => true | _ => false end.

Inductive result (A : Type) : Type :=
| Ok (a : A)
| Raise (e : exn).
Arguments Ok {A} a.
Arguments Raise {A} e.

(** A JSON object whose values are strings: a Python dict indexed with
    [d["key"]], which raises [KeyError] on a missing key. *)
Definition getitem (d : gmap string string) (k : string) : result string :=
  match d !! k with
  | Some v => Ok v
  | None => Raise (KeyError k)
  end.

(** Python's [s[n:]]. *)
Fixpoint string_drop (n : nat) (s : string) : string :=
  match n, s with
  | O, _ => s
  | S _, EmptyString => EmptyString
  | S n', String _ rest => string_drop n' rest
  end.

(** Truthiness of a Python [str]: only the empty string is falsy. *)
Definition str_truthy (s : string) : bool :=
  match s with EmptyString => false | _ => true end.

(** ** The state-and-exception monad *)

Definition M (W A : Type) : Type := W -> result A * W.

Definition ret {W A} (a : A) : M W A := fun w => (Ok a, w).

Definition raise {W A} (e : exn) : M W A := fun w => (Raise e, w).

Definition bind {W A B} (c : M W A) (k : A -> M W B) : M W B :=
  fun w =>
    match c w with
    | (Ok a, w') => k a w'
    | (Raise e, w') => (Raise e, w')
    end.

(** An adapter's outcome enters the monad as a return or a raise. *)
Definition lift {W A} (r : result A) : M W A := fun w => (r, w).

(** [try: body / except Exception as e: handler e]. *)
Definition try_except {W A} (body : M W A) (handler : exn -> M W A) : M W A :=
  fun w =>
    match body w with
    | (Ok a, w') => (Ok a, w')
    | (Raise e, w') => handler e w'
    end.

(** [try: body / except HttpError as e: handler e]: any other exception
    leaves the handler. *)
Definition try_except_HttpError {W A} (body : M W A) (handler : exn -> M W A)
  : M W A :=
  fun w =>
    match body w with
    | (Ok a, w') => (Ok a, w')
    | (Raise e, w') => if is_HttpError e then handler e w' else (Raise e, w')
    end.

Declare Scope py_scope.
Delimit Scope py_scope with py.
Notation "x <- c ;; k" := (bind c (fun x => k))
  (at level 100, c at next level, k at level 200, right associativity) : py_scope.
Notation "c ;;; k" := (bind c (fun _ => k))
  (at level 100, k at level 200, right associativity) : py_scope.
#[local] Open Scope py_scope.

(** The transport's fault script: each call to the chat API consumes the
    head; [Some e] makes that call raise [e], [None] (or an exhausted
    script) lets it through. *)
Definition fault_script : Type := list (option exn).

(** The next call to the transport will be delivered. *)
Definition deliverable (fs : fault_script) : Prop :=
  match fs with
  | Some _ :: _ => False
  | _ => True
  end.

(** * src/bot.py (and its copy src/utils.py) *)
Module TeleBot.

Record Message : Type := {
  message_id : Z;
  chat_id : Z;     (* message.chat.id *)
  text : string;   (* message.text *)
}.

Record CallbackQuery : Type := {
  id : string;          (* call.id *)
  data : string;        (* call.data *)
  message : Message;    (* call.message *)
}.

Record InlineKeyboardButton : Type := {
  label : string;
  callback_data : string;
}.

(** [telebot.types.InlineKeyboardMarkup]: the rows of the keyboard. *)
Record InlineKeyboardMarkup : Type := {
  row_width : nat;
  keyboard : list (list InlineKeyboardButton);
}.

(** [service_utils.chunks]: cut [l] into rows of [n] (fuel: the length). *)
Fixpoint chunks_aux {A} (fuel n : nat) (l : list A) : list (list A) :=
  match fuel, l with
  | _, [] => []
  | O, _ => [l]
  | S fuel', _ => take n l :: chunks_aux fuel' n (drop n l)
  end.

Definition chunks {A} (n : nat) (l : list A) : list (list A) :=
  match n with
  | O => [l]
  | _ => chunks_aux (length l) n l
  end.

(** [InlineKeyboardMarkup(row_width=n)]; the constructor's default is 3. *)
Definition new_markup (n : nat) : InlineKeyboardMarkup :=
  {| row_width := n; keyboard := [] |}.

(** [markup.add(b1, ..., bn)]: appends the buttons in rows of [row_width]. *)
Definition markup_add (mk : InlineKeyboardMarkup)
    (buttons : list InlineKeyboardButton) : InlineKeyboardMarkup :=
  {| row_width := row_width mk;
     keyboard := keyboard mk ++ chunks (row_width mk) buttons |}.

Definition buttons_of (mk : InlineKeyboardMarkup) : list InlineKeyboardButton :=
  concat (keyboard mk).

(** What the transport delivered. *)
Inductive Sent : Type :=
| ReplyTo (to : Message) (body : string) (reply_markup : option InlineKeyboardMarkup)
| SendMessage (chat : Z) (body : string) (parse_mode : option string)
    (reply_markup : option InlineKeyboardMarkup)
| AnswerCallbackQuery (query : string) (body : option string)
| SendDocument (chat : Z) (file : string) (file_name : string).

(** The functions [register_next_step_handler] is given. *)
Inductive StepHandler : Type :=
| process_movie_request_step
| process_movie_rating_request_step
| process_url_upload_step
| process_rename_step.

(** Calls to the external adapters, as they happen. *)
Inductive AdapterCall : Type :=
| get_current_time_call
| get_current_date_call
| get_movie_details_call (title : string)
| get_movie_rating_call (title : string)
| search_movies_call (title : string).

(** A downloaded file waiting for its naming decision. *)
Record PendingUpload : Type := {
  file_handle : string;
  original_name : string;
  extension : string;
}.

Record World : Type := {
  outbox : list Sent;                      (* delivered, oldest first *)
  log : list string;                       (* logger.error lines *)
  calls : list AdapterCall;                (* adapter calls, oldest first *)
  next_step : gmap Z (list StepHandler);   (* armed next-step handlers, by chat *)
  user_data : gmap Z PendingUpload;        (* the module's user_data dict *)
  faults : fault_script;
}.

Definition set_outbox (o : list Sent) (w : World) : World :=
  {| outbox := o; log := log w; calls := calls w; next_step := next_step w;
     user_data := user_data w; faults := faults w |}.
Definition set_log (l : list string) (w : World) : World :=
  {| outbox := outbox w; log := l; calls := calls w; next_step := next_step w;
     user_data := user_data w; faults := faults w |}.
Definition set_calls (c : list AdapterCall) (w : World) : World :=
  {| outbox := outbox w; log := log w; calls := c; next_step := next_step w;
     user_data := user_data w; faults := faults w |}.
Definition set_next_step (n : gmap Z (list StepHandler)) (w : World) : World :=
  {| outbox := outbox w; log := log w; calls := calls w; next_step := n;
     user_data := user_data w; faults := faults w |}.
Definition set_user_data (u : gmap Z PendingUpload) (w : World) : World :=
  {| outbox := outbox w; log := log w; calls := calls w; next_step := next_step w;
     user_data := u; faults := faults w |}.
Definition set_faults (f : fault_script) (w : World) : World :=
  {| outbox := outbox w; log := log w; calls := calls w; next_step := next_step w;
     user_data := user_data w; faults := f |}.

(** One call to the chat API: raise what the script says, or deliver. *)
Definition transport (s : Sent) : M World unit :=
  fun w =>
    match faults w with
    | Some e :: fs => (Raise e, set_faults fs w)
    | None :: fs => (Ok tt, set_outbox (outbox w ++ [s]) (set_faults fs w))
    | [] => (Ok tt, set_outbox (outbox w ++ [s]) w)
    end.

Definition reply_to (m : Message) (body : string)
    (mk : option InlineKeyboardMarkup) : M World unit :=
  transport (ReplyTo m body mk).

Definition send_message (chat : Z) (body : string) (parse_mode : option string)
    (mk : option InlineKeyboardMarkup) : M World unit :=
  transport (SendMessage chat body parse_mode mk).

Definition answer_callback_query (query : string) (body : option string)
  : M World unit :=
  transport (AnswerCallbackQuery query body).

Definition logger_error (line : string) : M World unit :=
  fun w => (Ok tt, set_log (log w ++ [line]) w).

(** [bot.register_next_step_handler(message, h)]: the in-memory backend
    appends [h] to the handlers armed for the message's chat. *)
Definition register_next_step_handler (m : Message) (h : StepHandler)
  : M World unit :=
  fun w =>
    (Ok tt,
     set_next_step
       (<[chat_id m := default [] (next_step w !! chat_id m) ++ [h]]> (next_step w))
       w).

(** Calling an adapter: the call is recorded, its outcome returned or raised. *)
Definition call_adapter {A} (c : AdapterCall) (r : result A) : M World A :=
  fun w => (r, set_calls (calls w ++ [c]) w).

Definition oops : string := "Oops! Something went wrong. Please try again later.".

Definition welcome_text : string := "Hello! I'm a helpful bot. Choose an option:".

Definition welcome_buttons : list InlineKeyboardButton :=
  [ {| label := "Time"; callback_data := "time" |};
    {| label := "Date"; callback_data := "date" |};
    {| label := "Movie Details"; callback_data := "movie_details" |};
    {| label := "Movie Ratings"; callback_data := "movie_ratings" |};
    {| label := "URL Upload"; callback_data := "url_upload" |} ].

(** The commands [send_welcome] is registered for. *)
Definition send_welcome_commands : list string := ["start"; "help"].

(** [send_welcome(message)], bot.py 29-49. *)
Definition send_welcome_body (m : Message) : M World unit :=
  let markup := markup_add (new_markup 2) welcome_buttons in
  reply_to m welcome_text (Some markup).

Definition send_welcome (m : Message) : M World unit :=
  try_except (send_welcome_body m)
    (fun e =>
       logger_error ("Error in send_welcome: " +:+ exn_str e) ;;;
       reply_to m oops None).

(** ** The handlers that talk to the external adapters *)
Section Handlers.

(** The helpers bot.py imports from its utils module, whose code is not in
    the repository's files here: each is an outcome (or a function to
    one), a return or a raise. *)
Variable get_current_time : result string.
Variable get_current_date : result string.
Variable get_movie_details : string -> result string.
Variable get_movie_rating : string -> result string.
(** [None] is Python's [None]; a movie is a dict of strings. *)
Variable search_movies : string -> result (option (list (gmap string string))).
(** [process_file_upload(message, custom_file_name=...)]: it may send,
    change the stores, and raise. *)
Variable process_file_upload : Message -> option string -> M World unit.

(** [callback_query(call)], bot.py 53-107: the [try] block. *)
Definition callback_query_body (call : CallbackQuery) : M World unit :=
  if (data call =? "time")%string then
    now <- call_adapter get_current_time_call get_current_time ;;
    answer_callback_query (id call) (Some ("Current time: " +:+ now))
  else if (data call =? "date")%string then
    today <- call_adapter get_current_date_call get_current_date ;;
    answer_callback_query (id call) (Some ("Today's date: " +:+ today))
  else if (data call =? "movie_details")%string then
    answer_callback_query (id call) None ;;;
    send_message (chat_id (message call))
      "Send me a movie title to get details" None None ;;;
    register_next_step_handler (message call) process_movie_request_step
  else if (data call =? "movie_ratings")%string then
    answer_callback_query (id call) None ;;;
    send_message (chat_id (message call))
      "Send me a movie title to get ratings" None None ;;;
    register_next_step_handler (message call) process_movie_rating_request_step
  else if (data call =? "url_upload")%string then
    answer_callback_query (id call) None ;;;
    send_message (chat_id (message call))
      "Send me the URL of the file you want to upload:" None None ;;;
    register_next_step_handler (message call) process_url_upload_step
  else if (data call =? "rename")%string then
    answer_callback_query (id call) None ;;;
    send_message (chat_id (message call))
      "Enter a new file name (without extension):" None None ;;;
    register_next_step_handler (message call) process_rename_step
  else if ((data call =? "default") || (data call =? "cancel"))%string then
    answer_callback_query (id call) None ;;;
    process_file_upload (message call) None
  else
    answer_callback_query (id call) None ;;;
    let movie_name := data call in
    movie_info <- call_adapter (get_movie_details_call movie_name)
                    (get_movie_details movie_name) ;;
    send_message (chat_id (message call)) movie_info (Some "Markdown") None.

Definition callback_query (call : CallbackQuery) : M World unit :=
  try_except (callback_query_body call)
    (fun e =>
       logger_error ("Error in callback_query: " +:+ exn_str e) ;;;
       send_message (chat_id (message call)) oops None None).

(** The button of one search result: [f"{title} ({year})"], tagged with the
    title. *)
Definition movie_button (movie : gmap string string)
  : result InlineKeyboardButton :=
  match getitem movie "Title" with
  | Raise e => Raise e
  | Ok title =>
      match getitem movie "Year" with
      | Raise e => Raise e
      | Ok year =>
          Ok {| label := title +:+ " (" +:+ year +:+ ")"; callback_data := title |}
      end
  end.

(** The [for movie in movies] loop: one [markup.add] per result. *)
Fixpoint add_movie_buttons (markup : InlineKeyboardMarkup)
    (movies : list (gmap string string)) : result InlineKeyboardMarkup :=
  match movies with
  | [] => Ok markup
  | movie :: rest =>
      match movie_button movie with
      | Raise e => Raise e
      | Ok b => add_movie_buttons (markup_add markup [b]) rest
      end
  end.

(** [movies[0]]. *)
Definition first_movie (movies : list (gmap string string))
  : result (gmap string string) :=
  match movies with
  | movie :: _ => Ok movie
  | [] => Raise (OtherError "list index out of range")
  end.

(** [process_movie_request(message)], bot.py 111-146: the [try] block. *)
Definition process_movie_request_body (m : Message) : M World unit :=
  let movie_name := text m in
  movies <- call_adapter (search_movies_call movie_name)
              (search_movies movie_name) ;;
  match movies with
  | None =>
      send_message (chat_id m) "Movie search failed. Please try again later."
        None None
  | Some movies =>
      if (length movies =? 1)%nat then
        movie <- lift (first_movie movies) ;;
        title <- lift (getitem movie "Title") ;;
        movie_info <- call_adapter (get_movie_details_call title)
                        (get_movie_details title) ;;
        send_message (chat_id m) movie_info (Some "Markdown") None
      else if (1 <? length movies)%nat then
        markup <- lift (add_movie_buttons (new_markup 3) movies) ;;
        send_message (chat_id m) "Select the correct movie:" None (Some markup)
      else
        send_message (chat_id m) "Movie not found." None None
  end.

Definition process_movie_request (m : Message) : M World unit :=
  try_except (process_movie_request_body m)
    (fun e =>
       logger_error ("Error in process_movie_request: " +:+ exn_str e) ;;;
       send_message (chat_id m) oops None None).

(** [process_movie_rating_request(message)], bot.py 149-159. *)
Definition process_movie_rating_request_body (m : Message) : M World unit :=
  let movie_name := text m in
  movie_ratings <- call_adapter (get_movie_rating_call movie_name)
                     (get_movie_rating movie_name) ;;
  send_message (chat_id m) movie_ratings None None.

Definition process_movie_rating_request (m : Message) : M World unit :=
  try_except (process_movie_rating_request_body m)
    (fun e =>
       logger_error ("Error in process_movie_rating_request: " +:+ exn_str e) ;;;
       send_message (chat_id m) oops None None).

End Handlers.

(** The tags [callback_query] compares [call.data] with. *)
Definition fixed_tags : list string :=
  ["time"; "date"; "movie_details"; "movie_ratings"; "url_upload"; "rename";
   "default"; "cancel"].

(** Modelled from the spec: [process_file_upload], the finalize-upload step
    of the utils module, whose code is not among the repository's files
    here.  The spec (4.2): it sends the PendingUpload's file to the
    conversation, under its original name when no custom name is given and
    under the custom name with the extension preserved otherwise, then clears
    PendingUpload and the conversation state of that conversation.  What it
    does when nothing is pending the spec does not say: [no_pending]. *)
Definition process_file_upload_spec (no_pending : M World unit)
    (m : Message) (custom_file_name : option string) : M World unit :=
  fun w =>
    match user_data w !! chat_id m with
    | None => no_pending w
    | Some p =>
        let name :=
          match custom_file_name with
          | None => original_name p
          | Some n => n +:+ extension p
          end in
        (transport (SendDocument (chat_id m) (file_handle p) name) ;;;
         (fun w' =>
            (Ok tt,
             set_user_data (delete (chat_id m) (user_data w'))
               (set_next_step (delete (chat_id m) (next_step w')) w')))) w
    end.

(** ** Vocabulary for the statements about bot.py *)

(** The world after the transport delivered [l] more. *)
Definition sent (l : list Sent) (w : World) : World :=
  set_outbox (outbox w ++ l) w.

(** The world after the adapters were called [l] more. *)
Definition called (l : list AdapterCall) (w : World) : World :=
  set_calls (calls w ++ l) w.

(** What the [except] block of a handler leaves behind, given the world
    [w'] in which its [try] block raised [e]: one line logged, the stores
    and the adapters untouched and, when the transport takes the call, the
    generic message [generic] and a normal return. *)
Definition reported (handler : string) (generic : Sent) (e : exn)
    (w' : World) (r : result unit * World) : Prop :=
  log r.2 = log w' ++ ["Error in " +:+ handler +:+ ": " +:+ exn_str e]
  ∧ next_step r.2 = next_step w'
  ∧ user_data r.2 = user_data w'
  ∧ calls r.2 = calls w'
  ∧ (deliverable (faults w') →
     r.1 = Ok tt ∧ outbox r.2 = outbox w' ++ [generic]).

(** [c] leaves the armed steps as they were, however it ends. *)
Definition keeps_steps {A} (c : M World A) : Prop :=
  ∀ w r w', c w = (r, w') → next_step w' = next_step w.

(** [c] leaves the armed steps as they were when it raises. *)
Definition raise_keeps_steps {A} (c : M World A) : Prop :=
  ∀ w e w', c w = (Raise e, w') → next_step w' = next_step w.

(** The button the selection menu shows for a result with this title and
    year. *)
Definition selection_button (ty : string * string) : InlineKeyboardButton :=
  {| label := ty.1 +:+ " (" +:+ ty.2 +:+ ")"; callback_data := ty.1 |}.

(** The movie dict carries this title and year. *)
Definition titled (movie : gmap string string) (ty : string * string) : Prop :=
  movie !! "Title" = Some ty.1 ∧ movie !! "Year" = Some ty.2.

(** *** Example data *)

(** A world in which nothing has happened yet. *)
Definition idle : World :=
  {| outbox := []; log := []; calls := []; next_step := ∅; user_data := ∅;
     faults := [] |}.

Definition says (t : string) : Message :=
  {| message_id := 1; chat_id := 7; text := t |}.

Definition pressed (tag : string) : CallbackQuery :=
  {| id := "q1"; data := tag; message := says "menu" |}.

Definition movie (title year : string) : gmap string string :=
  <["Title" := title]> (<["Year" := year]> (<["imdbID" := "tt0"]> ∅)).

Definition example_search (title : string)
  : result (option (list (gmap string string))) :=
  if (title =? "Batman")%string then
    Ok (Some [movie "Batman" "1989"; movie "Batman Begins" "2005";
              movie "The Batman" "2022"])
  else if (title =? "Inception")%string then
    Ok (Some [movie "Inception" "2010"])
  else if (title =? "")%string then Ok None
  else Ok (Some []).

Definition example_details (title : string) : result string :=
  Ok ("*" +:+ title +:+ "*").

Definition clock_down : exn := OtherError "clock down".

(** A world in which chat 7 has a downloaded file waiting. *)
Definition uploading : World :=
  {| outbox := []; log := []; calls := [];
     next_step := {[ 7%Z := [process_rename_step] ]};
     user_data := {[ 7%Z := {| file_handle := "/tmp/file.zip";
                              original_name := "file.zip";
                              extension := ".zip" |} ]};
     faults := [] |}.

End TeleBot.

(** * src/main.py *)
Module Blogger.

(** A Google OAuth credential, with the attributes the code reads. *)
Record Credentials : Type := {
  token : string;
  valid : bool;                    (* creds.valid *)
  expired : bool;                  (* creds.expired *)
  refresh_token : option string;   (* creds.refresh_token *)
}.

(** The Blogger service handle [build] returns. *)
Record Service : Type := {
  credentials : option Credentials;
}.

Record Update : Type := {
  effective_user : Z;     (* update.effective_user.id *)
  mention_html : string;  (* update.effective_user.mention_html() *)
  text : string;          (* update.message.text *)
}.

Inductive Reply : Type :=
| ReplyText (body : string)
| ReplyHtml (body : string).

(** The response of [posts().list]: its ['items'] key may be missing. *)
Record PostList : Type := {
  items : option (list (gmap string string));
}.

(** What the handlers do outside the chat, in order: calls to the OAuth and
    Blogger adapters and writes of the token file. *)
Inductive Event : Type :=
| refresh_call (c : Credentials)
| run_local_server_call
| pickle_dump (file : string) (c : option Credentials)
| build_call (c : option Credentials)
| posts_list_call (blog_id : string)
| posts_get_call (blog_id post_id : string)
| posts_update_call (blog_id post_id : string) (body : gmap string string)
| posts_insert_call (blog_id : string) (body : gmap string string).

Record World : Type := {
  replies : list Reply;                      (* delivered, oldest first *)
  log : list string;                         (* logger.error lines *)
  trace : list Event;                        (* oldest first *)
  user_data : gmap Z (gmap string Service);  (* context.user_data, by user *)
  creds : option Credentials;                (* the module global *)
  disk : gmap string (option Credentials);   (* pickled files, by name *)
  faults : fault_script;
}.

Definition set_replies (r : list Reply) (w : World) : World :=
  {| replies := r; log := log w; trace := trace w; user_data := user_data w;
     creds := creds w; disk := disk w; faults := faults w |}.
Definition set_log (l : list string) (w : World) : World :=
  {| replies := replies w; log := l; trace := trace w; user_data := user_data w;
     creds := creds w; disk := disk w; faults := faults w |}.
Definition set_trace (t : list Event) (w : World) : World :=
  {| replies := replies w; log := log w; trace := t; user_data := user_data w;
     creds := creds w; disk := disk w; faults := faults w |}.
Definition set_user_data (u : gmap Z (gmap string Service)) (w : World) : World :=
  {| replies := replies w; log := log w; trace := trace w; user_data := u;
     creds := creds w; disk := disk w; faults := faults w |}.
Definition set_creds (c : option Credentials) (w : World) : World :=
  {| replies := replies w; log := log w; trace := trace w; user_data := user_data w;
     creds := c; disk := disk w; faults := faults w |}.
Definition set_disk (d : gmap string (option Credentials)) (w : World) : World :=
  {| replies := replies w; log := log w; trace := trace w; user_data := user_data w;
     creds := creds w; disk := d; faults := faults w |}.
Definition set_faults (f : fault_script) (w : World) : World :=
  {| replies := replies w; log := log w; trace := trace w; user_data := user_data w;
     creds := creds w; disk := disk w; faults := f |}.

(** One call to the chat API ([update.message.reply_text] and the like). *)
Definition transport (r : Reply) : M World unit :=
  fun w =>
    match faults w with
    | Some e :: fs => (Raise e, set_faults fs w)
    | None :: fs => (Ok tt, set_replies (replies w ++ [r]) (set_faults fs w))
    | [] => (Ok tt, set_replies (replies w ++ [r]) w)
    end.

Definition reply_text (body : string) : M World unit := transport (ReplyText body).
Definition reply_html (body : string) : M World unit := transport (ReplyHtml body).

Definition logger_error (line : string) : M World unit :=
  fun w => (Ok tt, set_log (log w ++ [line]) w).

(** Calling an adapter: the call is recorded, its outcome returned or raised. *)
Definition call_adapter {A} (c : Event) (r : result A) : M World A :=
  fun w => (r, set_trace (trace w ++ [c]) w).

Definition get_creds : M World (option Credentials) := fun w => (Ok (creds w), w).

Definition put_creds (c : option Credentials) : M World unit :=
  fun w => (Ok tt, set_creds c w).

(** [with open(file, 'wb') as f: pickle.dump(c, f)]. *)
Definition pickle_dump_to (file : string) (c : option Credentials) : M World unit :=
  fun w => (Ok tt, set_trace (trace w ++ [pickle_dump file c])
                     (set_disk (<[file := c]> (disk w)) w)).

(** [context.user_data]: the dict of the update's user, empty until
    something is stored in it. *)
Definition context_user_data (w : World) (u : Update) : gmap string Service :=
  default ∅ (user_data w !! effective_user u).

(** [context.user_data.get(key, None)]. *)
Definition user_data_get (u : Update) (key : string) : M World (option Service) :=
  fun w => (Ok (context_user_data w u !! key), w).

(** [context.user_data[key] = v]. *)
Definition user_data_set (u : Update) (key : string) (v : Service) : M World unit :=
  fun w =>
    (Ok tt,
     set_user_data
       (<[effective_user u := <[key := v]> (context_user_data w u)]>
          (user_data w))
       w).

(** The names main.py binds at module level: its imports (lines 1-10), its
    assignments and its functions. *)
Definition module_globals : list string :=
  [ "logging"; "Update"; "ForceReply"; "Updater"; "CommandHandler";
    "MessageHandler"; "Filters"; "CallbackContext"; "InstalledAppFlow";
    "build"; "HttpError"; "os"; "pickle"; "time"; "requests";
    "logger"; "creds"; "SCOPES"; "TELEGRAM_BOT_TOKEN";
    "authenticate_google_account"; "start"; "authenticate";
    "post_to_blogger"; "error"; "main" ].

(** Reading a global name that is neither bound in the module nor a
    builtin raises [NameError]. *)
Definition global_name (name : string) : M World unit :=
  if bool_decide (name ∈ module_globals) then ret tt else raise (NameError name).

(** Truthiness of an optional string attribute ([None] and [''] are falsy). *)
Definition opt_str_truthy (s : option string) : bool :=
  match s with
  | Some s => str_truthy s
  | None => false
  end.

Definition blog_id : string := "your-blog-id".

(** [message = update.message.text[6:]], main.py 77. *)
Definition post_body (text : string) : string := string_drop 6 text.

(** The [for post in posts.get('items', [])] loop of main.py 88-91: the id of
    the first post titled "Draft Post", if any. *)
Fixpoint find_draft (posts : list (gmap string string)) : result (option string) :=
  match posts with
  | [] => Ok None
  | post :: rest =>
      match getitem post "title" with
      | Raise e => Raise e
      | Ok title =>
          if (title =? "Draft Post")%string then
            match getitem post "id" with
            | Raise e => Raise e
            | Ok i => Ok (Some i)
            end
          else find_draft rest
      end
  end.

(** The body of the post [posts().insert] is given, main.py 101-104. *)
Definition new_post (message : string) : gmap string string :=
  <["title" := "New Draft Post"]> (<["content" := message]> ∅).

Section Google.

(** The OAuth and Blogger client libraries, as outcomes. *)
Variable refresh : Credentials -> result Credentials.
Variable run_local_server : result Credentials.
Variable build : option Credentials -> result Service.
Variable posts_list : Service -> string -> result PostList.
Variable posts_get : Service -> string -> string -> result (gmap string string).
Variable posts_update :
  Service -> string -> string -> gmap string string -> result (gmap string string).
Variable posts_insert :
  Service -> string -> gmap string string -> result (gmap string string).

(** [authenticate_google_account()], main.py 27-50. *)
Definition authenticate_google_account : M World (option Service) :=
  (fun w =>
     match disk w !! "token.pickle" with
     | Some c => (Ok tt, set_creds c w)
     | None => (Ok tt, w)
     end) ;;;
  c <- get_creds ;;
  (if match c with Some c => negb (valid c) | None => true end then
     (if match c with
         | Some c => expired c && opt_str_truthy (refresh_token c)
         | None => false
         end
      then
        (* creds.refresh(Request()): the argument is evaluated first *)
        global_name "Request" ;;;
        match c with
        | Some c =>
            c' <- call_adapter (refresh_call c) (refresh c) ;;
            put_creds (Some c')
        | None => ret tt
        end
      else
        c' <- call_adapter run_local_server_call run_local_server ;;
        put_creds (Some c')) ;;;
     c <- get_creds ;;
     pickle_dump_to "token.pickle" c
   else ret tt) ;;;
  c <- get_creds ;;
  try_except_HttpError
    (service <- call_adapter (build_call c) (build c) ;;
     ret (Some service))
    (fun err =>
       logger_error ("An error occurred: " +:+ exn_str err) ;;;
       ret None).

(** [start(update, context)], main.py 53-56. *)
Definition start (u : Update) : M World unit :=
  reply_html
    ("Hi " +:+ mention_html u +:+
     "! I can help you edit and publish posts on your Blogger account." +:+
     String (ascii_of_nat 10) "Type /authenticate to get started.").

(** [authenticate(update, context)], main.py 59-67. *)
Definition authenticate (u : Update) : M World unit :=
  reply_text
    "Redirecting to authenticate with Google. Please follow the instructions." ;;;
  service <- authenticate_google_account ;;
  match service with
  | Some service =>
      reply_text "Authentication successful! You can now create and edit posts." ;;;
      user_data_set u "service" service
  | None => reply_text "Authentication failed. Try again later."
  end.

(** The [try] block of [post_to_blogger], main.py 85-105. *)
Definition post_to_blogger_try (service : Service) (message : string)
  : M World unit :=
  posts <- call_adapter (posts_list_call blog_id) (posts_list service blog_id) ;;
  post_id <- lift (find_draft (default [] (items posts))) ;;
  if opt_str_truthy post_id then
    match post_id with
    | Some post_id =>
        post <- call_adapter (posts_get_call blog_id post_id)
                  (posts_get service blog_id post_id) ;;
        let post := <["content" := message]> post in
        updated_post <- call_adapter (posts_update_call blog_id post_id post)
                          (posts_update service blog_id post_id post) ;;
        url <- lift (getitem updated_post "url") ;;
        reply_text ("Post updated: " +:+ url)
    | None => ret tt
    end
  else
    new_post <- call_adapter (posts_insert_call blog_id (new_post message))
                  (posts_insert service blog_id (new_post message)) ;;
    url <- lift (getitem new_post "url") ;;
    reply_text ("New post created: " +:+ url).

(** [post_to_blogger(update, context)], main.py 70-108. *)
Definition post_to_blogger (u : Update) : M World unit :=
  service <- user_data_get u "service" ;;
  match service with
  | None => reply_text "You need to authenticate first. Use /authenticate."
  | Some service =>
      let message := post_body (text u) in
      if negb (str_truthy message) then
        reply_text "Please provide the content for the post."
      else
        try_except_HttpError (post_to_blogger_try service message)
          (fun error => reply_text ("An error occurred: " +:+ exn_str error))
  end.

(** The handlers [main] registers, main.py 123-128, in order. *)
Inductive Filter : Type :=
| CommandHandler (command : string)
| TextAndNotCommand.   (* Filters.text & ~Filters.command *)

Definition handlers : list (Filter * (Update -> M World unit)) :=
  [ (CommandHandler "start", start);
    (CommandHandler "authenticate", authenticate);
    (CommandHandler "post", post_to_blogger);
    (TextAndNotCommand, post_to_blogger) ].

(** A message is a command when its text starts with a slash. *)
Definition is_command (text : string) : bool :=
  match text with
  | String c _ => (c =? "/")%char
  | EmptyString => false
  end.

(** The command word of a message: what follows the slash, up to the
    first blank. *)
Fixpoint command_word (s : string) : string :=
  match s with
  | EmptyString => EmptyString
  | String c rest =>
      if (c =? " ")%char then EmptyString else String c (command_word rest)
  end.

Definition filter_matches (f : Filter) (text : string) : bool :=
  match f with
  | CommandHandler command =>
      is_command text && (command_word (string_drop 1 text) =? command)%string
  | TextAndNotCommand => negb (is_command text)
  end.

(** The dispatcher runs the first registered handler whose filter matches. *)
Fixpoint dispatch_in (hs : list (Filter * (Update -> M World unit)))
    (u : Update) : M World unit :=
  match hs with
  | [] => ret tt
  | (f, h) :: rest => if filter_matches f (text u) then h u else dispatch_in rest u
  end.

Definition dispatch (u : Update) : M World unit := dispatch_in handlers u.

End Google.

(** ** Vocabulary for the statements about main.py *)

(** The world after [l] more replies were delivered. *)
Definition replied (l : list Reply) (w : World) : World :=
  set_replies (replies w ++ l) w.

(** The world after [l] more adapter calls. *)
Definition traced (l : list Event) (w : World) : World :=
  set_trace (trace w ++ l) w.

(** No post of the list is titled "Draft Post" (and each has a title). *)
Definition no_draft (posts : list (gmap string string)) : Prop :=
  Forall (fun post => ∃ title, post !! "title" = Some title ∧ title ≠ "Draft Post")
    posts.

(** [draft], with id [post_id], is the first post of the list titled exactly
    "Draft Post". *)
Definition first_draft (posts : list (gmap string string))
    (draft : gmap string string) (post_id : string) : Prop :=
  ∃ before after,
    posts = before ++ draft :: after
    ∧ no_draft before
    ∧ draft !! "title" = Some "Draft Post"
    ∧ draft !! "id" = Some post_id.

(** The credential [authenticate_google_account] works with: the pickled
    one when the token file exists, the module global otherwise. *)
Definition loaded_creds (w : World) : option Credentials :=
  match disk w !! "token.pickle" with
  | Some c => c
  | None => creds w
  end.

(** A stored credential that is invalid, expired and refreshable. *)
Definition stale (tok refresh_tok : string) : Credentials :=
  {| token := tok; valid := false; expired := true;
     refresh_token := Some (String "r" refresh_tok) |}.

(** *** Example data *)

Definition fresh : Credentials :=
  {| token := "t1"; valid := true; expired := false; refresh_token := Some "r1" |}.

Definition blogger : Service := {| credentials := Some fresh |}.

Definition post (post_id title content url : string) : gmap string string :=
  <["id" := post_id]> (<["title" := title]> (<["content" := content]>
    (<["url" := url]> ∅))).

(** A world in which user 42 has authenticated. *)
Definition authenticated : World :=
  {| replies := []; log := []; trace := [];
     user_data := {[ 42%Z := {[ "service" := blogger ]} ]};
     creds := Some fresh; disk := {[ "token.pickle" := Some fresh ]};
     faults := [] |}.

(** A world fresh from start-up. *)
Definition started : World :=
  {| replies := []; log := []; trace := []; user_data := ∅;
     creds := None; disk := ∅; faults := [] |}.

Definition says (t : string) : Update :=
  {| effective_user := 42; mention_html := "Ann"; text := t |}.

(** A blog that holds one draft and one other post. *)
Definition example_posts_list (_ : Service) (_ : string) : result PostList :=
  Ok {| items := Some [ post "7" "Holiday" "sun" "http://b/7";
                        post "9" "Draft Post" "old" "http://b/9" ] |}.

(** A blog without posts: the response has no ['items']. *)
Definition empty_posts_list (_ : Service) (_ : string) : result PostList :=
  Ok {| items := None |}.

Definition failing_posts_list (_ : Service) (_ : string) : result PostList :=
  Raise (HttpError "<HttpError 403 Forbidden>").

Definition example_posts_get (_ : Service) (_ post_id : string)
  : result (gmap string string) :=
  Ok (post post_id "Draft Post" "old" ("http://b/" +:+ post_id)).

Definition example_posts_update (_ : Service) (_ _ : string)
    (body : gmap string string) : result (gmap string string) :=
  Ok body.

Definition example_posts_insert (_ : Service) (_ : string)
    (body : gmap string string) : result (gmap string string) :=
  Ok (<["id" := "11"]> (<["url" := "http://b/11"]> body)).

Definition example_refresh (c : Credentials) : result Credentials :=
  Ok {| token := "t2"; valid := true; expired := false;
        refresh_token := refresh_token c |}.

Definition example_build (c : option Credentials) : result Service :=
  Ok {| credentials := c |}.

End Blogger.


(** * More of src/bot.py: the conversation state *)
Module Conversation.
Import TeleBot.

(** The steps armed for a chat, oldest first. *)
Definition armed (w : World) (chat : Z) : list StepHandler :=
  default [] (next_step w !! chat).

(** The tags of [callback_query] that prompt for a text and arm a next
    step, each with its prompt and the handler it arms (bot.py 65-90). *)
Definition armed_by (tag : string) : option (string * StepHandler) :=
  if (tag =? "movie_details")%string then
    Some ("Send me a movie title to get details", process_movie_request_step)
  else if (tag =? "movie_ratings")%string then
    Some ("Send me a movie title to get ratings", process_movie_rating_request_step)
  else if (tag =? "url_upload")%string then
    Some ("Send me the URL of the file you want to upload:", process_url_upload_step)
  else if (tag =? "rename")%string then
    Some ("Enter a new file name (without extension):", process_rename_step)
  else None.

(** In [w'] every chat still has the steps it had in [w], in front. *)
Definition steps_grow (w w' : World) : Prop :=
  ∀ chat, armed w chat `prefix_of` armed w' chat.

(** [c] only ever adds armed steps, however it ends. *)
Definition only_arms {A} (c : M World A) : Prop :=
  ∀ w r w', c w = (r, w') → steps_grow w w'.

(** The world after [l] more lines were logged. *)
Definition logged (l : list string) (w : World) : World :=
  set_log (log w ++ l) w.

(** A search result that lacks one of the keys the menu reads. *)
Definition lacks_key (movie : gmap string string) : Prop :=
  movie !! "Title" = None ∨ movie !! "Year" = None.

End Conversation.

(** * src/utils.py: the pyrogram upload command *)
Module Uploader.

Record Message : Type := {
  chat_id : Z;     (* message.chat.id *)
  text : string;   (* message.text *)
}.

(** What the pyrogram client [app] delivered. *)
Inductive Sent : Type :=
| SendMessage (chat : Z) (body : string)
| SendDocument (chat : Z) (document : string) (caption : string).

Record World : Type := {
  delivered : list Sent;     (* oldest first *)
  printed : list string;     (* lines written by print *)
  faults : fault_script;
}.

(** One call to the client: raise what the script says, or deliver. *)
Definition transport (s : Sent) : M World unit :=
  fun w =>
    match faults w with
    | Some e :: fs =>
        (Raise e, {| delivered := delivered w; printed := printed w; faults := fs |})
    | None :: fs =>
        (Ok tt, {| delivered := delivered w ++ [s]; printed := printed w;
                   faults := fs |})
    | [] =>
        (Ok tt, {| delivered := delivered w ++ [s]; printed := printed w;
                   faults := [] |})
    end.

Definition print (line : string) : M World unit :=
  fun w =>
    (Ok tt, {| delivered := delivered w; printed := printed w ++ [line];
               faults := faults w |}).

(** [s.split(" ", 1)]: cut at the first blank, if there is one. *)
Fixpoint split_once (s : string) : list string :=
  match s with
  | EmptyString => [EmptyString]
  | String c rest =>
      if (c =? " ")%char then [EmptyString; rest]
      else
        match split_once rest with
        | h :: t => String c h :: t
        | [] => [String c EmptyString]
        end
  end.

(** [l[i]] on a Python list. *)
Definition index (l : list string) (i : nat) : result string :=
  match l !! i with
  | Some x => Ok x
  | None => Raise (OtherError "list index out of range")
  end.

(** [upload_file(client, message)], utils.py 169-186.  The progress
    callback handed to [send_document] only prints and is left out. *)
Definition upload_file_body (m : Message) : M World unit :=
  file_path_or_url <- lift (index (split_once (text m)) 1) ;;
  transport (SendMessage (chat_id m) "Starting file upload...") ;;;
  transport (SendDocument (chat_id m) file_path_or_url "Uploaded file").

Definition upload_file (m : Message) : M World unit :=
  try_except (upload_file_body m)
    (fun e =>
       print ("Error uploading file: " +:+ exn_str e) ;;;
       transport (SendMessage (chat_id m) ("Error uploading file: " +:+ exn_str e))).

(** The text holds a blank. *)
Fixpoint has_blank (s : string) : bool :=
  match s with
  | EmptyString => false
  | String c rest => (c =? " ")%char || has_blank rest
  end.

(** A world in which nothing has happened yet. *)
Definition quiet : World := {| delivered := []; printed := []; faults := [] |}.

End Uploader.

(** * More of src/main.py: the error handler and the stores *)
Module BloggerDispatch.
Import Blogger.

(** [logger.warning] and [logger.exception] write to the module's logger,
    as [logger.error] does. *)
Definition logger_warning (line : string) : M World unit :=
  fun w => (Ok tt, set_log (log w ++ [line]) w).

Section ErrorHandler.

(** How an f-string renders the update. *)
Variable render_update : Update → string.

(** [error(update, context)], main.py 111-114; [e] is [context.error]. *)
Definition error (u : Update) (e : exn) : M World unit :=
  logger_warning
    ("Update " +:+ render_update u +:+ " caused error " +:+ exn_str e) ;;;
  reply_text ("An error occurred: " +:+ exn_str e).

Variable refresh : Credentials → result Credentials.
Variable run_local_server : result Credentials.
Variable build : option Credentials → result Service.
Variable posts_list : Service → string → result PostList.
Variable posts_get : Service → string → string → result (gmap string string).
Variable posts_update :
  Service → string → string → gmap string string → result (gmap string string).
Variable posts_insert :
  Service → string → gmap string string → result (gmap string string).

(** The dispatcher with the error handler of main.py 131 registered: an
    exception that leaves a handler is handed to [error]; one that leaves
    [error] is logged and dropped. *)
Definition process_update (u : Update) : M World unit :=
  try_except
    (dispatch refresh run_local_server build posts_list posts_get posts_update
       posts_insert u)
    (fun e =>
       try_except (error u e)
         (fun _ =>
            logger_warning "An uncaught error was raised while handling the error.")).

End ErrorHandler.

(** [c] takes every world to one related to it by [R], however it ends. *)
Definition respects (R : World → World → Prop) {A} (c : M World A) : Prop :=
  ∀ w r w', c w = (r, w') → R w w'.




(** Between [w] and [w'] nothing was said in the chat, and the per-user
    store was left alone. *)
Definition nothing_said (w w' : World) : Prop :=
  replies w' = replies w ∧ user_data w' = user_data w ∧ faults w' = faults w.

(** A listed post the loop of [post_to_blogger] cannot read: it has no
    title, or it is titled "Draft Post" and has no id. *)
Definition unreadable (post : gmap string string) : Prop :=
  post !! "title" = None
  ∨ (post !! "title" = Some "Draft Post" ∧ post !! "id" = None).

End BloggerDispatch.


(** * Properties of src/bot.py *)
Module TeleBotSpec.
Import TeleBot.

(** A delivered call extends the outbox by the one message and leaves the
    stores alone. *)
Lemma transport_up (s : Sent) (w : World) :
  faults w = [] → transport s w = (Ok tt, sent [s] w).
Proof. intros Hf. unfold transport, sent. rewrite Hf. reflexivity. Qed.

Lemma transport_deliverable (s : Sent) (w : World) :
  deliverable (faults w) →
  transport s w =
    (Ok tt, set_outbox (outbox w ++ [s]) (set_faults (tail (faults w)) w)).
Proof.
  unfold transport. destruct w as [o l c n u f]; simpl.
  destruct f as [|[e|] fs]; simpl; intros Hd; try reflexivity. destruct Hd.
Qed.

(** Whatever the transport does, it touches neither the log, nor the
    adapters, nor the stores. *)
Lemma transport_frame (s : Sent) (w w' : World) (r : result unit) :
  transport s w = (r, w') →
  log w' = log w ∧ calls w' = calls w ∧ next_step w' = next_step w
  ∧ user_data w' = user_data w.
Proof.
  unfold transport. destruct w as [o l c n u f]; simpl.
  destruct f as [|[e|] fs]; intros [= <- <-]; simpl; auto.
Qed.

(** The shape every handler of bot.py has: a [try] block, and an [except]
    block that logs and sends the generic message. *)
Lemma try_except_reported (handler : string) (generic : Sent)
    (body : M World unit) (e : exn) (w w' : World) :
  body w = (Raise e, w') →
  reported handler generic e w'
    (try_except body
       (fun e => logger_error ("Error in " +:+ handler +:+ ": " +:+ exn_str e) ;;;
                 transport generic) w).
Proof.
  intros Hb. unfold reported, try_except, bind, logger_error. rewrite Hb. simpl.
  destruct (transport generic (set_log _ w')) as [r w''] eqn:Ht.
  pose proof (transport_frame _ _ _ _ Ht) as (Hl & Hc & Hn & Hu).
  simpl in *. repeat split; try assumption.
  - rewrite transport_deliverable in Ht by (destruct w'; assumption).
    injection Ht as <- <-. reflexivity.
  - rewrite transport_deliverable in Ht by (destruct w'; assumption).
    injection Ht as <- <-. destruct w'; reflexivity.
Qed.

(** *** /start and /help *)

Lemma send_welcome_frame (m : Message) (w : World) :
  calls (send_welcome m w).2 = calls w
  ∧ next_step (send_welcome m w).2 = next_step w
  ∧ user_data (send_welcome m w).2 = user_data w.
Proof.
  unfold send_welcome, send_welcome_body, try_except, bind, reply_to, logger_error.
  destruct (transport _ w) as [[[]|e] w1] eqn:H1;
    apply transport_frame in H1 as (_ & Hc & Hn & Hu); simpl; [auto|].
  destruct (transport _ (set_log _ w1)) as [r w2] eqn:H2.
  apply transport_frame in H2 as (_ & Hc2 & Hn2 & Hu2). simpl in *.
  rewrite Hc2, Hn2, Hu2. auto.
Qed.

(** C9.  [send_welcome], the handler of /start and /help, sends exactly one
    reply when the transport is up: the fixed welcome text with the five
    buttons Time, Date, Movie Details, Movie Ratings and URL Upload, tagged
    time, date, movie_details, movie_ratings and url_upload.  It logs
    nothing then; and whatever the transport does, it arms no next step,
    leaves the pending uploads alone and calls no external adapter. *)
Theorem send_welcome_single_reply (m : Message) (w : World) :
  send_welcome_commands = ["start"; "help"]
  ∧ (calls (send_welcome m w).2 = calls w
     ∧ next_step (send_welcome m w).2 = next_step w
     ∧ user_data (send_welcome m w).2 = user_data w)
  ∧ (faults w = [] →
     ∃ markup,
       send_welcome m w =
         (Ok tt,
          sent [ReplyTo m "Hello! I'm a helpful bot. Choose an option:"
                  (Some markup)] w)
       ∧ map (fun b => (label b, callback_data b)) (buttons_of markup) =
           [ ("Time", "time"); ("Date", "date");
             ("Movie Details", "movie_details");
             ("Movie Ratings", "movie_ratings");
             ("URL Upload", "url_upload") ]).
Proof.
  split; [reflexivity|]. split; [apply send_welcome_frame|].
  intros Hf. eexists. split.
  - unfold send_welcome, send_welcome_body, try_except, reply_to.
    rewrite transport_up by assumption. reflexivity.
  - reflexivity.
Qed.

(** /start in a world where nothing has happened yet. *)
Lemma send_welcome_single_reply_witness :
  faults idle = []
  ∧ ∃ markup,
      send_welcome (says "/start") idle =
        (Ok tt,
         sent [ReplyTo (says "/start")
                 "Hello! I'm a helpful bot. Choose an option:" (Some markup)]
           idle)
      ∧ map (fun b => (label b, callback_data b)) (buttons_of markup) =
          [ ("Time", "time"); ("Date", "date");
            ("Movie Details", "movie_details");
            ("Movie Ratings", "movie_ratings");
            ("URL Upload", "url_upload") ].
Proof.
  split; [reflexivity|].
  destruct (send_welcome_single_reply (says "/start") idle) as (_ & _ & H).
  exact (H eq_refl).
Defined.

(** *** The movie-details step *)

Lemma markup_add_one (mk : InlineKeyboardMarkup) (b : InlineKeyboardButton) :
  markup_add mk [b] =
    {| row_width := row_width mk; keyboard := keyboard mk ++ [[b]] |}.
Proof.
  unfold markup_add, chunks. destruct (row_width mk) as [|[|n]]; reflexivity.
Qed.

Lemma movie_button_titled (movie : gmap string string) (ty : string * string) :
  titled movie ty → movie_button movie = Ok (selection_button ty).
Proof.
  intros [Ht Hy]. unfold movie_button, getitem. rewrite Ht, Hy. reflexivity.
Qed.

(** The loop adds one row, of one button, per result, in order. *)
Lemma add_movie_buttons_titled (movies : list (gmap string string))
    (tys : list (string * string)) :
  Forall2 titled movies tys →
  ∀ mk,
    add_movie_buttons mk movies =
      Ok {| row_width := row_width mk;
            keyboard := keyboard mk ++ map (fun ty => [selection_button ty]) tys |}.
Proof.
  induction 1 as [|movie ty movies tys Hty _ IH]; intros mk; simpl.
  - rewrite app_nil_r. destruct mk; reflexivity.
  - rewrite (movie_button_titled _ _ Hty), IH, markup_add_one. simpl.
    rewrite <- app_assoc. reflexivity.
Qed.

(** C1.  What [process_movie_request] answers is decided by what
    [search_movies] returns for the message text (transport up).  [None]:
    one "search failed" message.  An empty list: one "Movie not found."
    message.  Exactly one result: one message, the text [get_movie_details]
    returns for the result's title, sent with parse mode Markdown and
    without buttons.  Two or more results: one selection message whose
    keyboard has one button per result, in order, labelled
    "<title> (<year>)" and tagged with the title; [get_movie_details] is not
    called and no detail card is sent. *)
Theorem process_movie_request_outcomes
    (get_movie_details : string → result string)
    (search_movies : string → result (option (list (gmap string string))))
    (m : Message) (w : World) :
  faults w = [] →
  let run := process_movie_request get_movie_details search_movies m w in
  let searched := called [search_movies_call (text m)] w in
  (search_movies (text m) = Ok None →
   run = (Ok tt,
          sent [SendMessage (chat_id m)
                  "Movie search failed. Please try again later." None None]
            searched))
  ∧ (search_movies (text m) = Ok (Some []) →
     run = (Ok tt,
            sent [SendMessage (chat_id m) "Movie not found." None None] searched))
  ∧ (∀ movie title info,
       search_movies (text m) = Ok (Some [movie]) →
       movie !! "Title" = Some title →
       get_movie_details title = Ok info →
       run = (Ok tt,
              sent [SendMessage (chat_id m) info (Some "Markdown") None]
                (called [search_movies_call (text m);
                         get_movie_details_call title] w)))
  ∧ (∀ movies tys,
       search_movies (text m) = Ok (Some movies) →
       (2 ≤ length movies)%nat →
       Forall2 titled movies tys →
       run = (Ok tt,
              sent [SendMessage (chat_id m) "Select the correct movie:" None
                      (Some {| row_width := 3;
                               keyboard :=
                                 map (fun ty => [selection_button ty]) tys |})]
                searched)).
Proof.
  intros Hf run searched. subst run searched.
  unfold process_movie_request, process_movie_request_body, try_except, bind,
    call_adapter, send_message, lift.
  repeat split.
  - intros ->. simpl. rewrite transport_up by (destruct w; assumption).
    reflexivity.
  - intros ->. simpl. rewrite transport_up by (destruct w; assumption).
    reflexivity.
  - intros movie title info -> Ht Hd. simpl. unfold getitem. rewrite Ht, Hd.
    rewrite transport_up by (destruct w; assumption).
    unfold sent, called. destruct w; simpl. rewrite <- app_assoc. reflexivity.
  - intros movies tys -> Hlen Hty.
    destruct movies as [|m1 [|m2 movies]]; simpl in Hlen; try lia.
    cbn [length Nat.eqb Nat.ltb Nat.leb].
    rewrite (add_movie_buttons_titled _ _ Hty). simpl.
    rewrite transport_up by (destruct w; assumption). reflexivity.
Qed.

(** The four outcomes on the example adapter: no list for the empty title,
    no result for "Zzz", one for "Inception", three for "Batman". *)
Lemma process_movie_request_outcomes_witness :
  process_movie_request example_details example_search (says "") idle =
    (Ok tt,
     sent [SendMessage 7 "Movie search failed. Please try again later." None None]
       (called [search_movies_call ""] idle))
  ∧ process_movie_request example_details example_search (says "Zzz") idle =
      (Ok tt,
       sent [SendMessage 7 "Movie not found." None None]
         (called [search_movies_call "Zzz"] idle))
  ∧ process_movie_request example_details example_search (says "Inception") idle =
      (Ok tt,
       sent [SendMessage 7 "*Inception*" (Some "Markdown") None]
         (called [search_movies_call "Inception";
                  get_movie_details_call "Inception"] idle))
  ∧ process_movie_request example_details example_search (says "Batman") idle =
      (Ok tt,
       sent [SendMessage 7 "Select the correct movie:" None
               (Some {| row_width := 3;
                        keyboard :=
                          [ [{| label := "Batman (1989)";
                                callback_data := "Batman" |}];
                            [{| label := "Batman Begins (2005)";
                                callback_data := "Batman Begins" |}];
                            [{| label := "The Batman (2022)";
                                callback_data := "The Batman" |}] ] |})]
         (called [search_movies_call "Batman"] idle)).
Proof.
  split; [|split; [|split]].
  - destruct (process_movie_request_outcomes example_details example_search
                (says "") idle eq_refl) as (H & _).
    exact (H eq_refl).
  - destruct (process_movie_request_outcomes example_details example_search
                (says "Zzz") idle eq_refl) as (_ & H & _).
    exact (H eq_refl).
  - destruct (process_movie_request_outcomes example_details example_search
                (says "Inception") idle eq_refl) as (_ & _ & H & _).
    exact (H (movie "Inception" "2010") "Inception" "*Inception*"
             eq_refl eq_refl eq_refl).
  - destruct (process_movie_request_outcomes example_details example_search
                (says "Batman") idle eq_refl) as (_ & _ & _ & H).
    apply (H _ [("Batman", "1989"); ("Batman Begins", "2005");
                ("The Batman", "2022")] eq_refl).
    + simpl. lia.
    + repeat constructor.
Defined.

(** *** Button presses *)

Lemma not_fixed_tag (d : string) :
  d ∉ fixed_tags →
  (d =? "time")%string = false ∧ (d =? "date")%string = false
  ∧ (d =? "movie_details")%string = false
  ∧ (d =? "movie_ratings")%string = false
  ∧ (d =? "url_upload")%string = false ∧ (d =? "rename")%string = false
  ∧ (d =? "default")%string = false ∧ (d =? "cancel")%string = false.
Proof.
  intros Hd. repeat split; apply String.eqb_neq; intros ->; apply Hd;
    unfold fixed_tags; rewrite !elem_of_cons; tauto.
Qed.

(** On a fixed tag the body of [callback_query] never consults
    [get_movie_details]. *)
Lemma fixed_tag_ignores_details (get_current_time get_current_date : result string)
    (gmd gmd' : string → result string)
    (process_file_upload : Message → option string → M World unit)
    (call : CallbackQuery) :
  data call ∈ fixed_tags →
  callback_query_body get_current_time get_current_date gmd process_file_upload call
  = callback_query_body get_current_time get_current_date gmd' process_file_upload call.
Proof.
  unfold fixed_tags. rewrite !elem_of_cons, elem_of_nil.
  unfold callback_query_body.
  intros [->|[->|[->|[->|[->|[->|[->|[->|[]]]]]]]]]; reflexivity.
Qed.

(** C5.  A button press whose tag is none of time, date, movie_details,
    movie_ratings, url_upload, rename, default, cancel is read as a movie
    title: [callback_query] answers the press, fetches the details of that
    very string and sends them with parse mode Markdown (transport up,
    details returned).  A tag of the fixed set, also when it is a movie's
    title, is handled without [get_movie_details] having a say. *)
Theorem callback_query_unknown_tag_is_title
    (get_current_time get_current_date : result string)
    (get_movie_details : string → result string)
    (process_file_upload : Message → option string → M World unit)
    (call : CallbackQuery) (w : World) :
  (data call ∉ fixed_tags →
   faults w = [] →
   ∀ info,
     get_movie_details (data call) = Ok info →
     callback_query get_current_time get_current_date get_movie_details
       process_file_upload call w =
       (Ok tt,
        sent [AnswerCallbackQuery (id call) None;
              SendMessage (chat_id (message call)) info (Some "Markdown") None]
          (called [get_movie_details_call (data call)] w)))
  ∧ (data call ∈ fixed_tags →
     ∀ other_details,
       callback_query get_current_time get_current_date other_details
         process_file_upload call w =
       callback_query get_current_time get_current_date get_movie_details
         process_file_upload call w).
Proof.
  split.
  - intros Hd Hf info Hi.
    apply not_fixed_tag in Hd as (H1 & H2 & H3 & H4 & H5 & H6 & H7 & H8).
    unfold callback_query, callback_query_body, try_except.
    rewrite H1, H2, H3, H4, H5, H6, H7, H8. simpl.
    unfold bind, answer_callback_query, send_message, call_adapter.
    rewrite transport_up by assumption. rewrite Hi.
    rewrite transport_up by (destruct w; assumption).
    unfold sent, called. destruct w; simpl. rewrite <- app_assoc. reflexivity.
  - intros Hd other. unfold callback_query.
    rewrite (fixed_tag_ignores_details _ _ other get_movie_details _ _ Hd).
    reflexivity.
Qed.

(** A press tagged "Inception" is looked up as a title; a press tagged
    "time" is not. *)
Lemma callback_query_unknown_tag_is_title_witness :
  ("Inception" ∉ fixed_tags)
  ∧ callback_query (Ok "12:00") (Ok "2024-01-01") example_details
      (process_file_upload_spec (ret tt)) (pressed "Inception") idle =
      (Ok tt,
       sent [AnswerCallbackQuery "q1" None;
             SendMessage 7 "*Inception*" (Some "Markdown") None]
         (called [get_movie_details_call "Inception"] idle))
  ∧ ("time" ∈ fixed_tags)
  ∧ callback_query (Ok "12:00") (Ok "2024-01-01") (fun _ => Raise clock_down)
      (process_file_upload_spec (ret tt)) (pressed "time") idle =
    callback_query (Ok "12:00") (Ok "2024-01-01") example_details
      (process_file_upload_spec (ret tt)) (pressed "time") idle.
Proof.
  assert (Hn : "Inception" ∉ fixed_tags).
  { apply (bool_decide_unpack _). vm_compute. exact I. }
  assert (Hy : "time" ∈ fixed_tags).
  { apply (bool_decide_unpack _). vm_compute. exact I. }
  split; [exact Hn|]. split; [|split; [exact Hy|]].
  - destruct (callback_query_unknown_tag_is_title (Ok "12:00") (Ok "2024-01-01")
                example_details (process_file_upload_spec (ret tt))
                (pressed "Inception") idle) as (H & _).
    exact (H Hn eq_refl "*Inception*" eq_refl).
  - destruct (callback_query_unknown_tag_is_title (Ok "12:00") (Ok "2024-01-01")
                example_details (process_file_upload_spec (ret tt))
                (pressed "time") idle) as (_ & H).
    exact (H Hy (fun _ => Raise clock_down)).
Defined.

(** C4.  With a tag of default or of cancel, [callback_query] answers the
    press and calls [process_file_upload] on the message with no custom
    name, whichever of the two tags it was and whatever the helper is.
    With the finalize step the spec describes and an upload pending for the
    chat (transport up), either press sends the pending file once, under its
    original name, and clears the pending upload and the armed step: cancel
    discards nothing. *)
Theorem default_and_cancel_finalize
    (get_current_time get_current_date : result string)
    (get_movie_details : string → result string)
    (call : CallbackQuery) (w : World) :
  data call = "default" ∨ data call = "cancel" →
  (∀ process_file_upload,
     callback_query_body get_current_time get_current_date get_movie_details
       process_file_upload call =
     (answer_callback_query (id call) None ;;;
      process_file_upload (message call) None))
  ∧ (∀ no_pending p,
       user_data w !! chat_id (message call) = Some p →
       faults w = [] →
       callback_query get_current_time get_current_date get_movie_details
         (process_file_upload_spec no_pending) call w =
       (Ok tt,
        set_user_data (delete (chat_id (message call)) (user_data w))
          (set_next_step (delete (chat_id (message call)) (next_step w))
             (sent [AnswerCallbackQuery (id call) None;
                    SendDocument (chat_id (message call)) (file_handle p)
                      (original_name p)] w)))).
Proof.
  intros Htag.
  assert (Hbody : ∀ pfu,
            callback_query_body get_current_time get_current_date
              get_movie_details pfu call =
            (answer_callback_query (id call) None ;;; pfu (message call) None)).
  { intros pfu. unfold callback_query_body.
    destruct Htag as [-> | ->]; reflexivity. }
  split; [exact Hbody|].
  intros no_pending p Hp Hf. unfold callback_query, try_except.
  rewrite Hbody. unfold bind, answer_callback_query.
  rewrite transport_up by assumption.
  unfold process_file_upload_spec. cbn [sent user_data set_outbox].
  rewrite Hp. unfold bind.
  rewrite transport_up by (destruct w; assumption).
  unfold sent. destruct w; simpl. rewrite <- app_assoc. reflexivity.
Qed.

(** The cancel button, pressed while file.zip is pending for chat 7. *)
Lemma default_and_cancel_finalize_witness :
  (data (pressed "cancel") = "default" ∨ data (pressed "cancel") = "cancel")
  ∧ callback_query (Ok "12:00") (Ok "2024-01-01") example_details
      (process_file_upload_spec (ret tt)) (pressed "cancel") uploading =
    (Ok tt,
     set_user_data (delete 7%Z (user_data uploading))
       (set_next_step (delete 7%Z (next_step uploading))
          (sent [AnswerCallbackQuery "q1" None;
                 SendDocument 7 "/tmp/file.zip" "file.zip"] uploading))).
Proof.
  split; [right; reflexivity|].
  destruct (default_and_cancel_finalize (Ok "12:00") (Ok "2024-01-01")
              example_details (pressed "cancel") uploading
              (or_intror eq_refl)) as (_ & H).
  exact (H (ret tt) _ eq_refl eq_refl).
Defined.

(** *** The except blocks *)

Lemma keeps_steps_raise {A} (c : M World A) :
  keeps_steps c → raise_keeps_steps c.
Proof. intros H w e w' Hc. exact (H _ _ _ Hc). Qed.

Lemma keeps_steps_transport (s : Sent) : keeps_steps (transport s).
Proof. intros w r w' H. apply transport_frame in H. tauto. Qed.

Lemma keeps_steps_call_adapter {A} (c : AdapterCall) (r : result A) :
  keeps_steps (call_adapter c r).
Proof. intros w r' w' [= <- <-]. reflexivity. Qed.

Lemma keeps_steps_lift {A} (r : result A) : keeps_steps (lift (W := World) r).
Proof. intros w r' w' [= <- <-]. reflexivity. Qed.

Lemma keeps_steps_bind {A B} (c : M World A) (k : A → M World B) :
  keeps_steps c → (∀ a, keeps_steps (k a)) → keeps_steps (bind c k).
Proof.
  intros Hc Hk w r w'. unfold bind.
  destruct (c w) as [[a|e] w1] eqn:E.
  - intros Hka. rewrite (Hk _ _ _ _ Hka). exact (Hc _ _ _ E).
  - intros [= <- <-]. exact (Hc _ _ _ E).
Qed.

Lemma raise_keeps_steps_bind {A B} (c : M World A) (k : A → M World B) :
  keeps_steps c → (∀ a, raise_keeps_steps (k a)) → raise_keeps_steps (bind c k).
Proof.
  intros Hc Hk w e w'. unfold bind.
  destruct (c w) as [[a|e'] w1] eqn:E.
  - intros Hka. rewrite (Hk _ _ _ _ Hka). exact (Hc _ _ _ E).
  - intros [= <- <-]. exact (Hc _ _ _ E).
Qed.

(** Arming a step never raises. *)
Lemma raise_keeps_steps_register (m : Message) (h : StepHandler) :
  raise_keeps_steps (register_next_step_handler m h).
Proof. intros w e w' [=]. Qed.

Ltac steps :=
  repeat first
    [ apply keeps_steps_transport
    | apply keeps_steps_call_adapter
    | apply keeps_steps_lift
    | apply raise_keeps_steps_register
    | apply keeps_steps_bind; [|intros ?]
    | apply raise_keeps_steps_bind; [|intros ?]
    | apply keeps_steps_raise ].

Lemma send_welcome_body_steps (m : Message) : keeps_steps (send_welcome_body m).
Proof. unfold send_welcome_body, reply_to. steps. Qed.

Lemma process_movie_request_body_steps
    (get_movie_details : string → result string)
    (search_movies : string → result (option (list (gmap string string))))
    (m : Message) :
  keeps_steps (process_movie_request_body get_movie_details search_movies m).
Proof.
  unfold process_movie_request_body, send_message.
  apply keeps_steps_bind; [steps|]. intros [movies|]; [|steps].
  destruct (length movies =? 1)%nat; [steps|].
  destruct (1 <? length movies)%nat; steps.
Qed.

Lemma process_movie_rating_request_body_steps
    (get_movie_rating : string → result string) (m : Message) :
  keeps_steps (process_movie_rating_request_body get_movie_rating m).
Proof. unfold process_movie_rating_request_body, send_message. steps. Qed.

(** Off the upload path, a raise inside [callback_query]'s [try] block
    happens before anything was armed. *)
Lemma callback_query_body_steps
    (get_current_time get_current_date : result string)
    (get_movie_details : string → result string)
    (process_file_upload : Message → option string → M World unit)
    (call : CallbackQuery) :
  data call ≠ "default" → data call ≠ "cancel" →
  raise_keeps_steps
    (callback_query_body get_current_time get_current_date get_movie_details
       process_file_upload call).
Proof.
  intros Hd Hc. apply String.eqb_neq in Hd, Hc.
  unfold callback_query_body, answer_callback_query, send_message.
  rewrite Hd, Hc. simpl.
  repeat (match goal with
          | |- context [if ?b then _ else _] => destruct b
          end; [solve [steps]|]).
  steps.
Qed.

(** C6.  When the [try] block of a handler of bot.py raises an exception
    [e], leaving the world [w'], the handler's [except] block logs one line
    naming the handler and [e] and sends one generic "something went wrong"
    message (the handler then returns normally, when the transport takes
    that message); it calls no adapter and leaves the armed next steps and
    the pending uploads as they were in [w'].  Except on the upload path of
    [callback_query], whose helper is external, the armed steps in [w'] are
    those from before the handler ran. *)
Theorem exceptions_logged_and_reported
    (get_current_time get_current_date : result string)
    (get_movie_details get_movie_rating : string → result string)
    (search_movies : string → result (option (list (gmap string string))))
    (process_file_upload : Message → option string → M World unit)
    (e : exn) (w w' : World) :
  (∀ m,
     send_welcome_body m w = (Raise e, w') →
     reported "send_welcome" (ReplyTo m oops None) e w' (send_welcome m w)
     ∧ next_step w' = next_step w)
  ∧ (∀ call,
       callback_query_body get_current_time get_current_date get_movie_details
         process_file_upload call w = (Raise e, w') →
       reported "callback_query"
         (SendMessage (chat_id (message call)) oops None None) e w'
         (callback_query get_current_time get_current_date get_movie_details
            process_file_upload call w)
       ∧ (data call ≠ "default" → data call ≠ "cancel" →
          next_step w' = next_step w))
  ∧ (∀ m,
       process_movie_request_body get_movie_details search_movies m w
         = (Raise e, w') →
       reported "process_movie_request"
         (SendMessage (chat_id m) oops None None) e w'
         (process_movie_request get_movie_details search_movies m w)
       ∧ next_step w' = next_step w)
  ∧ (∀ m,
       process_movie_rating_request_body get_movie_rating m w = (Raise e, w') →
       reported "process_movie_rating_request"
         (SendMessage (chat_id m) oops None None) e w'
         (process_movie_rating_request get_movie_rating m w)
       ∧ next_step w' = next_step w).
Proof.
  split; [|split; [|split]].
  - intros m H. split.
    + apply (try_except_reported "send_welcome" _ _ _ _ _ H).
    + exact (send_welcome_body_steps _ _ _ _ H).
  - intros call H. split.
    + apply (try_except_reported "callback_query" _ _ _ _ _ H).
    + intros Hd Hc. exact (callback_query_body_steps _ _ _ _ _ Hd Hc _ _ _ H).
  - intros m H. split.
    + apply (try_except_reported "process_movie_request" _ _ _ _ _ H).
    + exact (process_movie_request_body_steps _ _ _ _ _ _ H).
  - intros m H. split.
    + apply (try_except_reported "process_movie_rating_request" _ _ _ _ _ H).
    + exact (process_movie_rating_request_body_steps _ _ _ _ _ H).
Qed.

(** The clock adapter raises under the time button; the transport refuses
    the welcome message. *)
Lemma exceptions_logged_and_reported_witness :
  callback_query_body (Raise clock_down) (Ok "2024-01-01") example_details
    (process_file_upload_spec (ret tt)) (pressed "time") idle
  = (Raise clock_down, called [get_current_time_call] idle)
  ∧ reported "callback_query" (SendMessage 7 oops None None) clock_down
      (called [get_current_time_call] idle)
      (callback_query (Raise clock_down) (Ok "2024-01-01") example_details
         (process_file_upload_spec (ret tt)) (pressed "time") idle)
  ∧ send_welcome_body (says "/start")
      (set_faults [Some (ApiException "timed out")] idle)
    = (Raise (ApiException "timed out"), idle)
  ∧ reported "send_welcome" (ReplyTo (says "/start") oops None)
      (ApiException "timed out") idle
      (send_welcome (says "/start")
         (set_faults [Some (ApiException "timed out")] idle)).
Proof.
  split; [reflexivity|]. split; [|split; [reflexivity|]].
  - destruct (exceptions_logged_and_reported (Raise clock_down)
                (Ok "2024-01-01") example_details example_details
                example_search (process_file_upload_spec (ret tt))
                clock_down idle (called [get_current_time_call] idle))
      as (_ & H & _).
    exact (proj1 (H (pressed "time") eq_refl)).
  - destruct (exceptions_logged_and_reported (Raise clock_down)
                (Ok "2024-01-01") example_details example_details
                example_search (process_file_upload_spec (ret tt))
                (ApiException "timed out")
                (set_faults [Some (ApiException "timed out")] idle) idle)
      as (H & _).
    exact (proj1 (H (says "/start") eq_refl)).
Defined.

End TeleBotSpec.

(** * Properties of src/main.py *)
Module BloggerSpec.
Import Blogger.

Lemma reply_up (r : Reply) (w : World) :
  faults w = [] → transport r w = (Ok tt, replied [r] w).
Proof. intros Hf. unfold transport, replied. rewrite Hf. reflexivity. Qed.

(** Whatever the transport does, it touches neither the log, nor the trace,
    nor the stores. *)
Lemma reply_frame (r : Reply) (w w' : World) (res : result unit) :
  transport r w = (res, w') →
  trace w' = trace w ∧ user_data w' = user_data w ∧ creds w' = creds w
  ∧ disk w' = disk w ∧ log w' = log w.
Proof.
  unfold transport. destruct w as [rs l t u c d f]; simpl.
  destruct f as [|[e|] fs]; intros [= <- <-]; simpl; auto.
Qed.

Lemma str_truthy_nonempty (s : string) : s ≠ "" → str_truthy s = true.
Proof. destruct s; [congruence|reflexivity]. Qed.

Lemma find_draft_no_draft (posts : list (gmap string string)) :
  no_draft posts → find_draft posts = Ok None.
Proof.
  induction 1 as [|post posts (title & Ht & Hne) _ IH]; simpl; [reflexivity|].
  unfold getitem. rewrite Ht.
  apply String.eqb_neq in Hne. rewrite Hne. exact IH.
Qed.

Lemma find_draft_first_draft (posts : list (gmap string string))
    (draft : gmap string string) (post_id : string) :
  first_draft posts draft post_id → find_draft posts = Ok (Some post_id).
Proof.
  intros (before & after & -> & Hb & Ht & Hi).
  induction Hb as [|post before (title & Htitle & Hne) _ IH]; simpl.
  - unfold getitem. rewrite Ht, Hi. reflexivity.
  - unfold getitem at 1. rewrite Htitle.
    apply String.eqb_neq in Hne. rewrite Hne. exact IH.
Qed.

Ltac same_world w :=
  unfold replied, traced; destruct w; simpl in *; subst;
  rewrite <- ?app_assoc; reflexivity.

(** C7.  Without a service handle stored for the user, [post_to_blogger]
    (the handler of /post and of the catch-all) only replies: it makes no
    adapter call and writes no file (the trace stays as it was), and it
    leaves the per-user store, the credential, the disk and the log
    untouched.  With the transport up the reply is the one instruction to
    authenticate first. *)
Theorem post_to_blogger_needs_authentication
    (posts_list : Service → string → result PostList)
    (posts_get : Service → string → string → result (gmap string string))
    (posts_update :
       Service → string → string → gmap string string → result (gmap string string))
    (posts_insert : Service → string → gmap string string → result (gmap string string))
    (u : Update) (w : World) :
  context_user_data w u !! "service" = None →
  (trace (post_to_blogger posts_list posts_get posts_update posts_insert u w).2
     = trace w
   ∧ user_data (post_to_blogger posts_list posts_get posts_update posts_insert u w).2
     = user_data w
   ∧ creds (post_to_blogger posts_list posts_get posts_update posts_insert u w).2
     = creds w
   ∧ disk (post_to_blogger posts_list posts_get posts_update posts_insert u w).2
     = disk w
   ∧ log (post_to_blogger posts_list posts_get posts_update posts_insert u w).2
     = log w)
  ∧ (faults w = [] →
     post_to_blogger posts_list posts_get posts_update posts_insert u w =
       (Ok tt,
        replied [ReplyText "You need to authenticate first. Use /authenticate."]
          w)).
Proof.
  intros Hs.
  assert (Hrun : post_to_blogger posts_list posts_get posts_update posts_insert u w
                 = reply_text "You need to authenticate first. Use /authenticate." w).
  { unfold post_to_blogger, bind, user_data_get. rewrite Hs. reflexivity. }
  rewrite Hrun. split.
  - unfold reply_text.
    destruct (transport _ w) as [res w'] eqn:Ht.
    apply reply_frame in Ht. exact Ht.
  - intros Hf. unfold reply_text. apply reply_up. exact Hf.
Qed.

(** An update of a user who never authenticated. *)
Lemma post_to_blogger_needs_authentication_witness :
  context_user_data started (says "/post Hello") !! "service" = None
  ∧ post_to_blogger example_posts_list example_posts_get example_posts_update
      example_posts_insert (says "/post Hello") started =
    (Ok tt,
     replied [ReplyText "You need to authenticate first. Use /authenticate."]
       started).
Proof.
  split; [reflexivity|].
  destruct (post_to_blogger_needs_authentication example_posts_list
              example_posts_get example_posts_update example_posts_insert
              (says "/post Hello") started eq_refl) as (_ & H).
  exact (H eq_refl).
Defined.

(** C10.  For an authenticated user whose text is empty once its first six
    characters (the "/post " prefix) are dropped, [post_to_blogger] only
    replies: nothing is listed, fetched, updated or inserted (the trace
    stays as it was).  With the transport up the reply is the one prompt
    for content.  The bare command "/post" is such a text. *)
Theorem post_to_blogger_empty_body
    (posts_list : Service → string → result PostList)
    (posts_get : Service → string → string → result (gmap string string))
    (posts_update :
       Service → string → string → gmap string string → result (gmap string string))
    (posts_insert : Service → string → gmap string string → result (gmap string string))
    (u : Update) (w : World) (service : Service) :
  context_user_data w u !! "service" = Some service →
  post_body (text u) = "" →
  trace (post_to_blogger posts_list posts_get posts_update posts_insert u w).2
    = trace w
  ∧ (faults w = [] →
     post_to_blogger posts_list posts_get posts_update posts_insert u w =
       (Ok tt, replied [ReplyText "Please provide the content for the post."] w))
  ∧ post_body "/post" = "" ∧ post_body "/post " = "".
Proof.
  intros Hs Hb.
  assert (Hrun : post_to_blogger posts_list posts_get posts_update posts_insert u w
                 = reply_text "Please provide the content for the post." w).
  { unfold post_to_blogger, bind, user_data_get. rewrite Hs. simpl.
    rewrite Hb. reflexivity. }
  rewrite Hrun. split; [|split; [|split; reflexivity]].
  - unfold reply_text.
    destruct (transport _ w) as [res w'] eqn:Ht.
    apply reply_frame in Ht. tauto.
  - intros Hf. unfold reply_text. apply reply_up. exact Hf.
Qed.

(** The bare command, from an authenticated user. *)
Lemma post_to_blogger_empty_body_witness :
  context_user_data authenticated (says "/post") !! "service" = Some blogger
  ∧ post_body (text (says "/post")) = ""
  ∧ post_to_blogger example_posts_list example_posts_get example_posts_update
      example_posts_insert (says "/post") authenticated =
    (Ok tt,
     replied [ReplyText "Please provide the content for the post."] authenticated).
Proof.
  split; [reflexivity|]. split; [reflexivity|].
  destruct (post_to_blogger_empty_body example_posts_list example_posts_get
              example_posts_update example_posts_insert (says "/post")
              authenticated blogger eq_refl eq_refl) as (_ & H & _).
  exact (H eq_refl).
Defined.

(** C2.  For an authenticated user and a non-empty body (the text without
    its first six characters), with the transport up, [post_to_blogger]
    lists the blog's posts and then: if a listed post is titled exactly
    "Draft Post", it fetches the first such post, sets its content to the
    body, sends the update and replies with the updated post's URL;
    if none is, it inserts a new post whose content is the body and replies
    with the new post's URL; and if the list, get, update or insert call
    raises an HttpError, it replies with that error's text and makes no
    further call. *)
Theorem post_to_blogger_updates_or_creates
    (posts_list : Service → string → result PostList)
    (posts_get : Service → string → string → result (gmap string string))
    (posts_update :
       Service → string → string → gmap string string → result (gmap string string))
    (posts_insert : Service → string → gmap string string → result (gmap string string))
    (u : Update) (w : World) (service : Service) :
  context_user_data w u !! "service" = Some service →
  post_body (text u) ≠ "" →
  faults w = [] →
  let body := post_body (text u) in
  let run := post_to_blogger posts_list posts_get posts_update posts_insert u w in
  (∀ posts listed draft post_id post updated url,
     posts_list service blog_id = Ok posts →
     items posts = Some listed →
     first_draft listed draft post_id →
     post_id ≠ "" →
     posts_get service blog_id post_id = Ok post →
     posts_update service blog_id post_id (<["content" := body]> post) = Ok updated →
     updated !! "url" = Some url →
     run = (Ok tt,
            replied [ReplyText ("Post updated: " +:+ url)]
              (traced [posts_list_call blog_id;
                       posts_get_call blog_id post_id;
                       posts_update_call blog_id post_id
                         (<["content" := body]> post)] w)))
  ∧ (∀ posts created url,
       posts_list service blog_id = Ok posts →
       no_draft (default [] (items posts)) →
       posts_insert service blog_id (new_post body) = Ok created →
       created !! "url" = Some url →
       new_post body !! "content" = Some body
       ∧ run = (Ok tt,
                replied [ReplyText ("New post created: " +:+ url)]
                  (traced [posts_list_call blog_id;
                           posts_insert_call blog_id (new_post body)] w)))
  ∧ (∀ rendered,
       posts_list service blog_id = Raise (HttpError rendered) →
       run = (Ok tt,
              replied [ReplyText ("An error occurred: " +:+ rendered)]
                (traced [posts_list_call blog_id] w)))
  ∧ (∀ posts listed draft post_id rendered,
       posts_list service blog_id = Ok posts →
       items posts = Some listed →
       first_draft listed draft post_id →
       post_id ≠ "" →
       posts_get service blog_id post_id = Raise (HttpError rendered) →
       run = (Ok tt,
              replied [ReplyText ("An error occurred: " +:+ rendered)]
                (traced [posts_list_call blog_id;
                         posts_get_call blog_id post_id] w)))
  ∧ (∀ posts listed draft post_id post rendered,
       posts_list service blog_id = Ok posts →
       items posts = Some listed →
       first_draft listed draft post_id →
       post_id ≠ "" →
       posts_get service blog_id post_id = Ok post →
       posts_update service blog_id post_id (<["content" := body]> post)
         = Raise (HttpError rendered) →
       run = (Ok tt,
              replied [ReplyText ("An error occurred: " +:+ rendered)]
                (traced [posts_list_call blog_id;
                         posts_get_call blog_id post_id;
                         posts_update_call blog_id post_id
                           (<["content" := body]> post)] w)))
  ∧ (∀ posts rendered,
       posts_list service blog_id = Ok posts →
       no_draft (default [] (items posts)) →
       posts_insert service blog_id (new_post body) = Raise (HttpError rendered) →
       run = (Ok tt,
              replied [ReplyText ("An error occurred: " +:+ rendered)]
                (traced [posts_list_call blog_id;
                         posts_insert_call blog_id (new_post body)] w))).
Proof.
  intros Hs Hbody Hf body run. subst run.
  assert (Hrun :
            post_to_blogger posts_list posts_get posts_update posts_insert u w =
            try_except_HttpError
              (post_to_blogger_try posts_list posts_get posts_update posts_insert
                 service body)
              (fun error => reply_text ("An error occurred: " +:+ exn_str error)) w).
  { unfold post_to_blogger, bind, user_data_get. rewrite Hs. simpl.
    rewrite (str_truthy_nonempty _ Hbody). reflexivity. }
  rewrite Hrun. clear Hrun.
  unfold try_except_HttpError, post_to_blogger_try, bind, call_adapter, lift,
    reply_text.
  split; [|split; [|split; [|split; [|split]]]].
  - intros posts listed draft post_id post updated url Hl Hi Hd Hne Hg Hu Hurl.
    rewrite Hl, Hi. simpl. rewrite (find_draft_first_draft _ _ _ Hd). simpl.
    rewrite (str_truthy_nonempty _ Hne), Hg, Hu. unfold getitem. rewrite Hurl.
    rewrite reply_up by (destruct w; assumption). f_equal. same_world w.
  - intros posts created url Hl Hn Hins Hurl. split; [reflexivity|].
    rewrite Hl, (find_draft_no_draft _ Hn). simpl. rewrite Hins.
    unfold getitem. rewrite Hurl.
    rewrite reply_up by (destruct w; assumption). f_equal. same_world w.
  - intros rendered Hl. rewrite Hl. simpl.
    rewrite reply_up by (destruct w; assumption). reflexivity.
  - intros posts listed draft post_id rendered Hl Hi Hd Hne Hg.
    rewrite Hl, Hi. simpl. rewrite (find_draft_first_draft _ _ _ Hd). simpl.
    rewrite (str_truthy_nonempty _ Hne), Hg. simpl.
    rewrite reply_up by (destruct w; assumption). f_equal. same_world w.
  - intros posts listed draft post_id post rendered Hl Hi Hd Hne Hg Hu.
    rewrite Hl, Hi. simpl. rewrite (find_draft_first_draft _ _ _ Hd). simpl.
    rewrite (str_truthy_nonempty _ Hne), Hg, Hu. simpl.
    rewrite reply_up by (destruct w; assumption). f_equal. same_world w.
  - intros posts rendered Hl Hn Hins.
    rewrite Hl, (find_draft_no_draft _ Hn). simpl. rewrite Hins. simpl.
    rewrite reply_up by (destruct w; assumption). f_equal. same_world w.
Qed.

(** "/post Hello" from an authenticated user: on a blog that lists a
    "Draft Post", on a blog without posts, and when listing fails. *)
Lemma post_to_blogger_updates_or_creates_witness :
  context_user_data authenticated (says "/post Hello") !! "service" = Some blogger
  ∧ post_body (text (says "/post Hello")) = "Hello"
  ∧ post_to_blogger example_posts_list example_posts_get example_posts_update
      example_posts_insert (says "/post Hello") authenticated =
    (Ok tt,
     replied [ReplyText "Post updated: http://b/9"]
       (traced [posts_list_call blog_id;
                posts_get_call blog_id "9";
                posts_update_call blog_id "9"
                  (<["content" := "Hello"]>
                     (post "9" "Draft Post" "old" "http://b/9"))] authenticated))
  ∧ post_to_blogger empty_posts_list example_posts_get example_posts_update
      example_posts_insert (says "/post Hello") authenticated =
    (Ok tt,
     replied [ReplyText "New post created: http://b/11"]
       (traced [posts_list_call blog_id;
                posts_insert_call blog_id (new_post "Hello")] authenticated))
  ∧ post_to_blogger failing_posts_list example_posts_get example_posts_update
      example_posts_insert (says "/post Hello") authenticated =
    (Ok tt,
     replied [ReplyText "An error occurred: <HttpError 403 Forbidden>"]
       (traced [posts_list_call blog_id] authenticated)).
Proof.
  assert (Hne : post_body (text (says "/post Hello")) ≠ "") by discriminate.
  split; [reflexivity|]. split; [reflexivity|]. split; [|split].
  - destruct (post_to_blogger_updates_or_creates example_posts_list
                example_posts_get example_posts_update example_posts_insert
                (says "/post Hello") authenticated blogger eq_refl Hne eq_refl)
      as (H & _).
    apply (H _ _ (post "9" "Draft Post" "old" "http://b/9") "9"
             (post "9" "Draft Post" "old" "http://b/9")
             (<["content" := "Hello"]> (post "9" "Draft Post" "old" "http://b/9"))
             "http://b/9" eq_refl eq_refl).
    + exists [post "7" "Holiday" "sun" "http://b/7"], [].
      split; [reflexivity|]. split; [|split; reflexivity].
      constructor; [|constructor]. exists "Holiday". split; [reflexivity|discriminate].
    + discriminate.
    + reflexivity.
    + reflexivity.
    + reflexivity.
  - destruct (post_to_blogger_updates_or_creates empty_posts_list
                example_posts_get example_posts_update example_posts_insert
                (says "/post Hello") authenticated blogger eq_refl Hne eq_refl)
      as (_ & H & _).
    exact (proj2 (H {| items := None |}
                    (<["id" := "11"]> (<["url" := "http://b/11"]> (new_post "Hello")))
                    "http://b/11" eq_refl (List.Forall_nil _) eq_refl eq_refl)).
  - destruct (post_to_blogger_updates_or_creates failing_posts_list
                example_posts_get example_posts_update example_posts_insert
                (says "/post Hello") authenticated blogger eq_refl Hne eq_refl)
      as (_ & _ & H & _).
    exact (H _ eq_refl).
Defined.

(** *** The catch-all handler *)

(** Every text that is no command reaches [post_to_blogger]. *)
Lemma catch_all_is_post_to_blogger
    (refresh : Credentials → result Credentials)
    (run_local_server : result Credentials)
    (build : option Credentials → result Service)
    (posts_list : Service → string → result PostList)
    (posts_get : Service → string → string → result (gmap string string))
    (posts_update :
       Service → string → string → gmap string string → result (gmap string string))
    (posts_insert : Service → string → gmap string string → result (gmap string string))
    (u : Update) :
  is_command (text u) = false →
  dispatch refresh run_local_server build posts_list posts_get posts_update
    posts_insert u
  = post_to_blogger posts_list posts_get posts_update posts_insert u.
Proof.
  intros Hc. unfold dispatch, handlers, dispatch_in, filter_matches.
  rewrite Hc. reflexivity.
Qed.

(** C3 (what the code does).  A text that is no command is routed to
    [post_to_blogger] by the catch-all filter, and that handler drops the
    first six characters whatever the text: "Hello world" is posted as
    "world", where "/post Hello world" is posted as "Hello world"; and the
    short text "Hi" is answered with the prompt for content, nothing being
    posted. *)
Theorem catch_all_drops_six_characters :
  filter_matches TextAndNotCommand "Hello world" = true
  ∧ post_body "Hello world" = "world"
  ∧ post_body "/post Hello world" = "Hello world"
  ∧ dispatch example_refresh (Ok fresh) example_build empty_posts_list
      example_posts_get example_posts_update example_posts_insert
      (says "Hello world") authenticated =
    (Ok tt,
     replied [ReplyText "New post created: http://b/11"]
       (traced [posts_list_call blog_id;
                posts_insert_call blog_id (new_post "world")] authenticated))
  ∧ dispatch example_refresh (Ok fresh) example_build empty_posts_list
      example_posts_get example_posts_update example_posts_insert
      (says "/post Hello world") authenticated =
    (Ok tt,
     replied [ReplyText "New post created: http://b/11"]
       (traced [posts_list_call blog_id;
                posts_insert_call blog_id (new_post "Hello world")]
          authenticated))
  ∧ dispatch example_refresh (Ok fresh) example_build empty_posts_list
      example_posts_get example_posts_update example_posts_insert
      (says "Hi") authenticated =
    (Ok tt,
     replied [ReplyText "Please provide the content for the post."]
       authenticated).
Proof. repeat split; vm_compute; reflexivity. Qed.

(** *** Authentication *)

Lemma Request_is_unbound : global_name "Request" = raise (NameError "Request").
Proof. reflexivity. Qed.

(** C8 (what the code does).  With a stored credential that is invalid,
    expired and has a refresh token, [authenticate_google_account] raises
    NameError on the name Request, which main.py never binds: the
    credential is loaded from the token file, and then no refresh is
    called, nothing is written to disk and no service is built (the trace
    is as before). *)
Theorem refresh_branch_raises_NameError
    (refresh : Credentials → result Credentials)
    (run_local_server : result Credentials)
    (build : option Credentials → result Service)
    (tok refresh_tok : string) (w : World) :
  authenticate_google_account refresh run_local_server build
    (set_disk (<["token.pickle" := Some (stale tok refresh_tok)]> (disk w)) w)
  = (Raise (NameError "Request"),
     set_creds (Some (stale tok refresh_tok))
       (set_disk (<["token.pickle" := Some (stale tok refresh_tok)]> (disk w)) w)).
Proof.
  unfold authenticate_google_account, bind. cbn [disk set_disk].
  rewrite lookup_insert_eq. cbn [get_creds creds set_creds].
  cbn [valid expired refresh_token stale negb andb opt_str_truthy str_truthy].
  rewrite Request_is_unbound. reflexivity.
Qed.

(** The other branch of the same test: a credential that is missing, or
    invalid and not refreshable, is replaced by the interactive flow's, and
    the new credential is written to the token file before the service is
    built. *)
Lemma interactive_flow_persists_before_build
    (refresh : Credentials → result Credentials)
    (run_local_server : result Credentials)
    (build : option Credentials → result Service)
    (w : World) (c : Credentials) (service : Service) :
  match loaded_creds w with
  | Some c0 => valid c0 = false
               ∧ expired c0 && opt_str_truthy (refresh_token c0) = false
  | None => True
  end →
  run_local_server = Ok c →
  build (Some c) = Ok service →
  (authenticate_google_account refresh run_local_server build w).1
    = Ok (Some service)
  ∧ trace (authenticate_google_account refresh run_local_server build w).2
    = trace w ++ [run_local_server_call; pickle_dump "token.pickle" (Some c);
                  build_call (Some c)]
  ∧ disk (authenticate_google_account refresh run_local_server build w).2
      !! "token.pickle" = Some (Some c)
  ∧ creds (authenticate_google_account refresh run_local_server build w).2
    = Some c.
Proof.
  intros Hc Hr Hb.
  unfold authenticate_google_account, bind, loaded_creds in *.
  destruct w as [rs l t ud cr d f]; simpl in *.
  assert (Hflow : ∀ w0 : World,
            trace w0 = t → disk w0 = d →
            let r := bind
                       (bind
                          (bind (call_adapter run_local_server_call run_local_server)
                             (fun c' => put_creds (Some c')))
                          (fun _ => bind get_creds
                                      (fun c => pickle_dump_to "token.pickle" c)))
                       (fun _ => bind get_creds
                          (fun c =>
                             try_except_HttpError
                               (bind (call_adapter (build_call c) (build c))
                                  (fun service => ret (Some service)))
                               (fun err =>
                                  bind (logger_error
                                          ("An error occurred: " +:+ exn_str err))
                                    (fun _ => ret None)))) w0 in
            r.1 = Ok (Some service)
            ∧ trace r.2 = t ++ [run_local_server_call;
                                pickle_dump "token.pickle" (Some c);
                                build_call (Some c)]
            ∧ disk r.2 !! "token.pickle" = Some (Some c)
            ∧ creds r.2 = Some c).
  { intros w0 <- <-.
    unfold bind, call_adapter, put_creds, get_creds, pickle_dump_to,
      try_except_HttpError, ret.
    rewrite Hr. simpl. rewrite Hb. simpl.
    rewrite <- !app_assoc, lookup_insert_eq. auto. }
  destruct (d !! "token.pickle") as [stored|] eqn:Hd; simpl;
    [destruct stored as [c0|] | destruct cr as [c0|]]; simpl.
  - destruct Hc as [Hv He]. rewrite Hv, He. simpl. apply Hflow; reflexivity.
  - apply Hflow; reflexivity.
  - destruct Hc as [Hv He]. rewrite Hv, He. simpl. apply Hflow; reflexivity.
  - apply Hflow; reflexivity.
Qed.

(** A valid credential is used as it is: no refresh, no flow, no write. *)
Lemma valid_credential_only_builds
    (refresh : Credentials → result Credentials)
    (run_local_server : result Credentials)
    (build : option Credentials → result Service)
    (w : World) (c : Credentials) (service : Service) :
  loaded_creds w = Some c →
  valid c = true →
  build (Some c) = Ok service →
  authenticate_google_account refresh run_local_server build w =
    (Ok (Some service), traced [build_call (Some c)] (set_creds (Some c) w)).
Proof.
  intros Hl Hv Hb.
  unfold authenticate_google_account, bind, loaded_creds in *.
  destruct w as [rs l t ud cr d f]; simpl in *.
  destruct (d !! "token.pickle") as [stored|] eqn:Hd; simpl; subst; simpl;
    rewrite Hv; simpl;
    unfold call_adapter, try_except_HttpError, bind; simpl;
    rewrite Hb; reflexivity.
Qed.

End BloggerSpec.


(** * More properties of src/bot.py *)
Module ConversationSpec.
Import TeleBot Conversation.

Lemma armed_by_cases (tag prompt : string) (h : StepHandler) :
  armed_by tag = Some (prompt, h) →
  (tag = "movie_details" ∧ prompt = "Send me a movie title to get details"
   ∧ h = process_movie_request_step)
  ∨ (tag = "movie_ratings" ∧ prompt = "Send me a movie title to get ratings"
     ∧ h = process_movie_rating_request_step)
  ∨ (tag = "url_upload"
     ∧ prompt = "Send me the URL of the file you want to upload:"
     ∧ h = process_url_upload_step)
  ∨ (tag = "rename" ∧ prompt = "Enter a new file name (without extension):"
     ∧ h = process_rename_step).
Proof.
  unfold armed_by.
  destruct (String.eqb_spec tag "movie_details") as [->|_]; [intros [= <- <-]; auto|].
  destruct (String.eqb_spec tag "movie_ratings") as [->|_]; [intros [= <- <-]; auto|].
  destruct (String.eqb_spec tag "url_upload") as [->|_]; [intros [= <- <-]; auto 6|].
  destruct (String.eqb_spec tag "rename") as [->|_]; [intros [= <- <-]; auto 6|].
  discriminate.
Qed.

(** X1.  A press tagged movie_details, movie_ratings, url_upload or rename
    is answered, prompts with the text of its branch and arms the handler
    of its branch for the chat of the pressed message, behind the steps
    already armed there; no adapter is called and the steps of every other
    chat stay as they were (transport up). *)
Theorem arming_press_arms_its_step
    (get_current_time get_current_date : result string)
    (get_movie_details : string → result string)
    (process_file_upload : Message → option string → M World unit)
    (call : CallbackQuery) (w : World) (prompt : string) (h : StepHandler) :
  armed_by (data call) = Some (prompt, h) →
  faults w = [] →
  ∃ w',
    callback_query get_current_time get_current_date get_movie_details
      process_file_upload call w = (Ok tt, w')
    ∧ outbox w' = outbox w ++ [AnswerCallbackQuery (id call) None;
                               SendMessage (chat_id (message call)) prompt None None]
    ∧ armed w' (chat_id (message call)) = armed w (chat_id (message call)) ++ [h]
    ∧ (∀ chat, chat ≠ chat_id (message call) → armed w' chat = armed w chat)
    ∧ calls w' = calls w ∧ log w' = log w ∧ user_data w' = user_data w.
Proof.
  intros Ha Hf. destruct w as [o l c n u f]; simpl in Hf; subst f.
  unfold callback_query, callback_query_body, try_except.
  destruct (armed_by_cases _ _ _ Ha) as
    [(-> & -> & ->)|[(-> & -> & ->)|[(-> & -> & ->)|(-> & -> & ->)]]];
    simpl; eexists; (split; [reflexivity|]); simpl;
    rewrite <- app_assoc; unfold armed; simpl;
    (split; [reflexivity|]);
    (split; [rewrite lookup_insert_eq; reflexivity|]);
    (split; [intros chat Hc; rewrite lookup_insert_ne by congruence; reflexivity|]);
    auto.
Qed.

(** The url_upload button, pressed in a chat where a movie title is
    already awaited. *)
Lemma arming_press_arms_its_step_witness :
  armed_by (data (pressed "url_upload")) =
    Some ("Send me the URL of the file you want to upload:", process_url_upload_step)
  ∧ ∃ w',
      callback_query (Ok "12:00") (Ok "2024-01-01") example_details
        (process_file_upload_spec (ret tt)) (pressed "url_upload")
        (set_next_step {[ 7%Z := [process_movie_request_step] ]} idle)
      = (Ok tt, w')
      ∧ armed w' 7 = [process_movie_request_step; process_url_upload_step].
Proof.
  split; [reflexivity|].
  destruct (arming_press_arms_its_step (Ok "12:00") (Ok "2024-01-01")
              example_details (process_file_upload_spec (ret tt))
              (pressed "url_upload")
              (set_next_step {[ 7%Z := [process_movie_request_step] ]} idle)
              _ _ eq_refl eq_refl) as (w' & Hrun & _ & Harmed & _).
  exists w'. split; [exact Hrun|exact Harmed].
Defined.

(** *** Armed steps are never dropped *)

Lemma steps_grow_same (w w' : World) :
  next_step w' = next_step w → steps_grow w w'.
Proof. intros H chat. unfold armed. rewrite H. reflexivity. Qed.

Lemma steps_grow_trans (w1 w2 w3 : World) :
  steps_grow w1 w2 → steps_grow w2 w3 → steps_grow w1 w3.
Proof. intros H12 H23 chat. etrans; [apply H12|apply H23]. Qed.

Lemma only_arms_keeps {A} (c : M World A) : keeps_steps c → only_arms c.
Proof. intros Hk w r w' Hc. apply steps_grow_same. exact (Hk _ _ _ Hc). Qed.

Lemma only_arms_register (m : Message) (h : StepHandler) :
  only_arms (register_next_step_handler m h).
Proof.
  intros w r w' [= <- <-] chat. unfold armed. simpl.
  destruct (decide (chat = chat_id m)) as [->|Hne].
  - rewrite lookup_insert_eq. simpl. apply prefix_app_r. reflexivity.
  - rewrite lookup_insert_ne by congruence. reflexivity.
Qed.

Lemma only_arms_logger_error (line : string) : only_arms (logger_error line).
Proof. intros w r w' [= <- <-]. apply steps_grow_same. reflexivity. Qed.

Lemma only_arms_bind {A B} (c : M World A) (k : A → M World B) :
  only_arms c → (∀ a, only_arms (k a)) → only_arms (bind c k).
Proof.
  intros Hc Hk w r w'. unfold bind.
  destruct (c w) as [[a|e] w1] eqn:E.
  - intros Hka. eapply steps_grow_trans; [exact (Hc _ _ _ E)|exact (Hk _ _ _ _ Hka)].
  - intros [= <- <-]. exact (Hc _ _ _ E).
Qed.

Lemma only_arms_try_except {A} (body : M World A) (handler : exn → M World A) :
  only_arms body → (∀ e, only_arms (handler e)) → only_arms (try_except body handler).
Proof.
  intros Hb Hh w r w'. unfold try_except.
  destruct (body w) as [[a|e] w1] eqn:E.
  - intros [= <- <-]. exact (Hb _ _ _ E).
  - intros He. eapply steps_grow_trans; [exact (Hb _ _ _ E)|exact (Hh _ _ _ _ He)].
Qed.

Ltac arms :=
  repeat first
    [ apply only_arms_register
    | apply only_arms_logger_error
    | apply only_arms_keeps, TeleBotSpec.keeps_steps_transport
    | apply only_arms_keeps, TeleBotSpec.keeps_steps_call_adapter
    | apply only_arms_keeps, TeleBotSpec.keeps_steps_lift
    | apply only_arms_bind; [|intros ?]
    | apply only_arms_try_except; [|intros ?]
    | assumption ].

(** X2.  [callback_query] never disarms: however it ends (adapters and
    transport may raise), every chat keeps the steps that were armed
    before, in front of anything newly armed.  On the upload path this is
    as true as it is of the external helper. *)
Theorem callback_query_never_disarms
    (get_current_time get_current_date : result string)
    (get_movie_details : string → result string)
    (process_file_upload : Message → option string → M World unit)
    (call : CallbackQuery) (w : World) (chat : Z) :
  (data call ≠ "default" ∧ data call ≠ "cancel")
  ∨ (∀ m name, only_arms (process_file_upload m name)) →
  armed w chat
    `prefix_of`
  armed (callback_query get_current_time get_current_date get_movie_details
           process_file_upload call w).2 chat.
Proof.
  intros Hup.
  assert (Hq : only_arms
                 (callback_query get_current_time get_current_date
                    get_movie_details process_file_upload call)).
  { unfold callback_query, callback_query_body, answer_callback_query,
      send_message.
    apply only_arms_try_except; [|intros e; arms].
    destruct Hup as [[Hd Hc]|Hpfu].
    - apply String.eqb_neq in Hd, Hc. rewrite Hd, Hc. simpl.
      repeat (match goal with
              | |- context [if ?b then _ else _] => destruct b
              end; [solve [arms]|]).
      arms.
    - repeat (match goal with
              | |- context [if ?b then _ else _] => destruct b
              end; [solve [arms; apply Hpfu]|]).
      arms. }
  destruct (callback_query _ _ _ _ call w) as [r w'] eqn:E.
  exact (Hq _ _ _ E chat).
Qed.

(** A press on rename whose prompt the transport refuses: the step armed
    before is still there. *)
Lemma callback_query_never_disarms_witness :
  (data (pressed "rename") ≠ "default" ∧ data (pressed "rename") ≠ "cancel")
  ∧ armed (set_next_step {[ 7%Z := [process_url_upload_step] ]} idle) 7
      `prefix_of`
    armed (callback_query (Ok "12:00") (Ok "2024-01-01") example_details
             (process_file_upload_spec (ret tt)) (pressed "rename")
             (set_faults [None; Some (ApiException "timed out")]
                (set_next_step {[ 7%Z := [process_url_upload_step] ]} idle))).2 7.
Proof.
  assert (H : data (pressed "rename") ≠ "default"
              ∧ data (pressed "rename") ≠ "cancel") by (split; discriminate).
  split; [exact H|].
  exact (callback_query_never_disarms (Ok "12:00") (Ok "2024-01-01")
           example_details (process_file_upload_spec (ret tt))
           (pressed "rename")
           (set_faults [None; Some (ApiException "timed out")]
              (set_next_step {[ 7%Z := [process_url_upload_step] ]} idle))
           7 (or_introl H)).
Defined.

(** *** The movie steps, whatever the adapters do *)

(** X3.  With the transport up, [process_movie_request] always returns
    normally and delivers exactly one message, to the chat the text came
    from, whatever [search_movies] and [get_movie_details] return or
    raise.  It calls [search_movies] once, first, and [get_movie_details]
    at most once after it, and it leaves the armed steps and the pending
    uploads alone. *)
Theorem process_movie_request_always_answers
    (get_movie_details : string → result string)
    (search_movies : string → result (option (list (gmap string string))))
    (m : Message) (w : World) :
  faults w = [] →
  ∃ body parse_mode markup rest,
    (process_movie_request get_movie_details search_movies m w).1 = Ok tt
    ∧ outbox (process_movie_request get_movie_details search_movies m w).2
      = outbox w ++ [SendMessage (chat_id m) body parse_mode markup]
    ∧ calls (process_movie_request get_movie_details search_movies m w).2
      = calls w ++ search_movies_call (text m) :: rest
    ∧ (rest = [] ∨ ∃ title, rest = [get_movie_details_call title])
    ∧ next_step (process_movie_request get_movie_details search_movies m w).2
      = next_step w
    ∧ user_data (process_movie_request get_movie_details search_movies m w).2
      = user_data w.
Proof.
  intros Hf. destruct w as [o l c n u f]; simpl in Hf; subst f.
  unfold process_movie_request, process_movie_request_body, try_except, bind,
    call_adapter, lift, send_message, logger_error.
  simpl.
  destruct (search_movies (text m)) as [[movies|]|e]; simpl;
    try (do 4 eexists; repeat split; simpl; eauto; fail).
  destruct movies as [|m1 [|m2 movies]]; simpl.
  - do 4 eexists; repeat split; simpl; eauto.
  - unfold getitem. destruct (m1 !! "Title") as [title|]; simpl.
    + destruct (get_movie_details title); simpl;
        do 4 eexists; repeat split; simpl; rewrite <- ?app_assoc; simpl; eauto.
    + do 4 eexists; repeat split; simpl; eauto.
  - destruct (match movie_button m1 with
              | Ok b =>
                  match movie_button m2 with
                  | Ok b0 =>
                      add_movie_buttons
                        (markup_add (markup_add (new_markup 3) [b]) [b0]) movies
                  | Raise e => Raise e
                  end
              | Raise e => Raise e
              end); simpl;
      do 4 eexists; repeat split; simpl; eauto.
Qed.

(** The search adapter itself raises. *)
Lemma process_movie_request_always_answers_witness :
  faults idle = []
  ∧ ∃ body parse_mode markup rest,
      (process_movie_request example_details (fun _ => Raise clock_down)
         (says "Batman") idle).1 = Ok tt
      ∧ outbox (process_movie_request example_details (fun _ => Raise clock_down)
                  (says "Batman") idle).2
        = outbox idle ++ [SendMessage 7 body parse_mode markup]
      ∧ calls (process_movie_request example_details (fun _ => Raise clock_down)
                 (says "Batman") idle).2
        = calls idle ++ search_movies_call "Batman" :: rest
      ∧ (rest = [] ∨ ∃ title, rest = [get_movie_details_call title])
      ∧ next_step (process_movie_request example_details
                     (fun _ => Raise clock_down) (says "Batman") idle).2
        = next_step idle
      ∧ user_data (process_movie_request example_details
                     (fun _ => Raise clock_down) (says "Batman") idle).2
        = user_data idle.
Proof.
  split; [reflexivity|].
  exact (process_movie_request_always_answers example_details
           (fun _ => Raise clock_down) (says "Batman") idle eq_refl).
Defined.

Lemma movie_button_raises (movie : gmap string string) :
  lacks_key movie →
  ∃ key, (key = "Title" ∨ key = "Year") ∧ movie_button movie = Raise (KeyError key).
Proof.
  unfold movie_button, getitem, lacks_key.
  destruct (movie !! "Title") as [title|]; [|eauto].
  destruct (movie !! "Year") as [year|]; [|eauto].
  intros [?|?]; discriminate.
Qed.

Lemma movie_button_raises_key (movie : gmap string string) (e : exn) :
  movie_button movie = Raise e → e = KeyError "Title" ∨ e = KeyError "Year".
Proof.
  unfold movie_button, getitem.
  destruct (movie !! "Title") as [title|]; [|intros [= <-]; auto].
  destruct (movie !! "Year") as [year|]; [discriminate|intros [= <-]; auto].
Qed.

(** One result the loop cannot read is enough for the loop to raise. *)
Lemma add_movie_buttons_raises (movies : list (gmap string string)) :
  Exists lacks_key movies →
  ∀ mk, ∃ key, (key = "Title" ∨ key = "Year")
               ∧ add_movie_buttons mk movies = Raise (KeyError key).
Proof.
  induction movies as [|movie movies IH]; intros Hex mk.
  - apply Exists_nil in Hex. destruct Hex.
  - simpl. destruct (movie_button movie) as [b|e] eqn:Hb.
    + apply Exists_cons in Hex as [Hl|Hex]; [|exact (IH Hex _)].
      destruct (movie_button_raises _ Hl) as (key & _ & Hr). congruence.
    + destruct (movie_button_raises_key _ _ Hb) as [-> | ->]; eauto.
Qed.

(** X4.  Search results are read by key, and a missing key costs the whole
    answer (transport up).  A single result without "Title": the details
    are never fetched; the KeyError is logged and the user gets the generic
    message.  Two or more results of which any one lacks "Title" or "Year":
    no selection menu at all, not even for the results that are complete;
    again only the log line and the generic message. *)
Theorem process_movie_request_missing_key
    (get_movie_details : string → result string)
    (search_movies : string → result (option (list (gmap string string))))
    (m : Message) (w : World) :
  faults w = [] →
  (∀ movie,
     search_movies (text m) = Ok (Some [movie]) →
     movie !! "Title" = None →
     process_movie_request get_movie_details search_movies m w =
       (Ok tt,
        sent [SendMessage (chat_id m) oops None None]
          (logged ["Error in process_movie_request: 'Title'"]
             (called [search_movies_call (text m)] w))))
  ∧ (∀ movies,
       search_movies (text m) = Ok (Some movies) →
       (2 ≤ length movies)%nat →
       Exists lacks_key movies →
       ∃ key,
         (key = "Title" ∨ key = "Year")
         ∧ process_movie_request get_movie_details search_movies m w =
             (Ok tt,
              sent [SendMessage (chat_id m) oops None None]
                (logged ["Error in process_movie_request: '" +:+ key +:+ "'"]
                   (called [search_movies_call (text m)] w)))).
Proof.
  intros Hf. destruct w as [o l c n u f]; simpl in Hf; subst f.
  unfold process_movie_request, process_movie_request_body, try_except, bind,
    call_adapter, lift, send_message, logger_error.
  split.
  - intros movie -> Ht. simpl. unfold getitem. rewrite Ht. reflexivity.
  - intros movies -> Hlen Hex.
    destruct (add_movie_buttons_raises _ Hex (new_markup 3)) as (key & Hk & Hr).
    exists key. split; [exact Hk|].
    destruct movies as [|m1 [|m2 movies]]; simpl in Hlen; try lia.
    cbn [length Nat.eqb Nat.ltb Nat.leb]. rewrite Hr. reflexivity.
Qed.

(** Three results, the second without its year. *)
Lemma process_movie_request_missing_key_witness :
  faults idle = []
  ∧ ∃ key,
      (key = "Title" ∨ key = "Year")
      ∧ process_movie_request example_details
          (fun _ => Ok (Some [movie "Batman" "1989";
                              delete "Year" (movie "Batman Begins" "2005");
                              movie "The Batman" "2022"]))
          (says "Batman") idle =
        (Ok tt,
         sent [SendMessage 7 oops None None]
           (logged ["Error in process_movie_request: '" +:+ key +:+ "'"]
              (called [search_movies_call "Batman"] idle))).
Proof.
  split; [reflexivity|].
  destruct (process_movie_request_missing_key example_details
              (fun _ => Ok (Some [movie "Batman" "1989";
                                  delete "Year" (movie "Batman Begins" "2005");
                                  movie "The Batman" "2022"]))
              (says "Batman") idle eq_refl) as (_ & H).
  apply (H _ eq_refl).
  - simpl. lia.
  - apply Exists_cons_tl, Exists_cons_hd. right. reflexivity.
Defined.

(** X5.  [process_movie_rating_request] relays: with the transport up it
    calls [get_movie_rating] once on the message text and sends what that
    returns, unchanged, as plain text without markup; when the adapter
    raises, it logs the exception and sends the generic message instead.
    Either way one message goes out and the handler returns normally. *)
Theorem process_movie_rating_request_relays
    (get_movie_rating : string → result string) (m : Message) (w : World) :
  faults w = [] →
  process_movie_rating_request get_movie_rating m w =
    (Ok tt,
     match get_movie_rating (text m) with
     | Ok ratings =>
         sent [SendMessage (chat_id m) ratings None None]
           (called [get_movie_rating_call (text m)] w)
     | Raise e =>
         sent [SendMessage (chat_id m) oops None None]
           (logged ["Error in process_movie_rating_request: " +:+ exn_str e]
              (called [get_movie_rating_call (text m)] w))
     end).
Proof.
  intros Hf. destruct w as [o l c n u f]; simpl in Hf; subst f.
  unfold process_movie_rating_request, process_movie_rating_request_body,
    try_except, bind, call_adapter, send_message, logger_error.
  simpl. destruct (get_movie_rating (text m)); reflexivity.
Qed.

(** A ratings text with markup characters goes out as it came. *)
Lemma process_movie_rating_request_relays_witness :
  faults idle = []
  ∧ process_movie_rating_request (fun _ => Ok "IMDb: *8.8*/10 _N/A_")
      (says "Inception") idle =
    (Ok tt,
     sent [SendMessage 7 "IMDb: *8.8*/10 _N/A_" None None]
       (called [get_movie_rating_call "Inception"] idle)).
Proof.
  split; [reflexivity|].
  exact (process_movie_rating_request_relays (fun _ => Ok "IMDb: *8.8*/10 _N/A_")
           (says "Inception") idle eq_refl).
Defined.

(** *** How a press is answered *)

(** X6.  Off the clock and upload tags, a press is always answered first
    and then followed by exactly one chat message, and the handler returns
    normally: the prompt of an arming tag, the details of a title, or the
    generic message when [get_movie_details] raises (transport up). *)
Theorem press_answered_then_one_message
    (get_current_time get_current_date : result string)
    (get_movie_details : string → result string)
    (process_file_upload : Message → option string → M World unit)
    (call : CallbackQuery) (w : World) :
  data call ∉ ["time"; "date"; "default"; "cancel"] →
  faults w = [] →
  ∃ body parse_mode,
    (callback_query get_current_time get_current_date get_movie_details
       process_file_upload call w).1 = Ok tt
    ∧ outbox (callback_query get_current_time get_current_date
                get_movie_details process_file_upload call w).2
      = outbox w ++ [AnswerCallbackQuery (id call) None;
                     SendMessage (chat_id (message call)) body parse_mode None].
Proof.
  intros Hd Hf. destruct w as [o l c n u f]; simpl in Hf; subst f.
  rewrite !not_elem_of_cons in Hd. destruct Hd as (Ht & Hda & Hde & Hc & _).
  apply String.eqb_neq in Ht, Hda, Hde, Hc.
  unfold callback_query, callback_query_body, try_except.
  rewrite Ht, Hda, Hde, Hc. simpl.
  repeat (match goal with
          | |- context [if ?b then _ else _] => destruct b
          end;
          [simpl; do 2 eexists; rewrite <- app_assoc; split; reflexivity|]).
  unfold bind, answer_callback_query, call_adapter, send_message, logger_error.
  simpl. destruct (get_movie_details (data call)); simpl;
    do 2 eexists; rewrite <- app_assoc; split; reflexivity.
Qed.

(** A title whose details cannot be fetched. *)
Lemma press_answered_then_one_message_witness :
  ("Inception" ∉ ["time"; "date"; "default"; "cancel"])
  ∧ ∃ body parse_mode,
      (callback_query (Ok "12:00") (Ok "2024-01-01") (fun _ => Raise clock_down)
         (process_file_upload_spec (ret tt)) (pressed "Inception") idle).1 = Ok tt
      ∧ outbox (callback_query (Ok "12:00") (Ok "2024-01-01")
                  (fun _ => Raise clock_down)
                  (process_file_upload_spec (ret tt)) (pressed "Inception") idle).2
        = outbox idle ++ [AnswerCallbackQuery "q1" None;
                          SendMessage 7 body parse_mode None].
Proof.
  assert (Hn : "Inception" ∉ ["time"; "date"; "default"; "cancel"]).
  { apply (bool_decide_unpack _). vm_compute. exact I. }
  split; [exact Hn|].
  exact (press_answered_then_one_message (Ok "12:00") (Ok "2024-01-01")
           (fun _ => Raise clock_down) (process_file_upload_spec (ret tt))
           (pressed "Inception") idle Hn eq_refl).
Defined.

(** X7.  The time and date presses read the clock before they answer.
    When the clock returns, the press is answered with "Current time: ..."
    (or "Today's date: ...") and no chat message is sent.  When the clock
    raises, the press is never answered: the exception is logged and the
    chat gets the generic message (transport up). *)
Theorem clock_press_outcomes
    (get_current_time get_current_date : result string)
    (get_movie_details : string → result string)
    (process_file_upload : Message → option string → M World unit)
    (call : CallbackQuery) (w : World) :
  faults w = [] →
  (data call = "time" →
   callback_query get_current_time get_current_date get_movie_details
     process_file_upload call w =
     (Ok tt,
      match get_current_time with
      | Ok now =>
          sent [AnswerCallbackQuery (id call) (Some ("Current time: " +:+ now))]
            (called [get_current_time_call] w)
      | Raise e =>
          sent [SendMessage (chat_id (message call)) oops None None]
            (logged ["Error in callback_query: " +:+ exn_str e]
               (called [get_current_time_call] w))
      end))
  ∧ (data call = "date" →
     callback_query get_current_time get_current_date get_movie_details
       process_file_upload call w =
       (Ok tt,
        match get_current_date with
        | Ok today =>
            sent [AnswerCallbackQuery (id call) (Some ("Today's date: " +:+ today))]
              (called [get_current_date_call] w)
        | Raise e =>
            sent [SendMessage (chat_id (message call)) oops None None]
              (logged ["Error in callback_query: " +:+ exn_str e]
                 (called [get_current_date_call] w))
        end)).
Proof.
  intros Hf. destruct w as [o l c n u f]; simpl in Hf; subst f.
  unfold callback_query, callback_query_body, try_except, bind, call_adapter,
    answer_callback_query, send_message, logger_error.
  split; intros ->; simpl.
  - destruct get_current_time; reflexivity.
  - destruct get_current_date; reflexivity.
Qed.

(** The time button with the clock adapter down. *)
Lemma clock_press_outcomes_witness :
  faults idle = []
  ∧ callback_query (Raise clock_down) (Ok "2024-01-01") example_details
      (process_file_upload_spec (ret tt)) (pressed "time") idle =
    (Ok tt,
     sent [SendMessage 7 oops None None]
       (logged ["Error in callback_query: clock down"]
          (called [get_current_time_call] idle)))
  ∧ callback_query (Ok "12:00") (Ok "2024-01-01") example_details
      (process_file_upload_spec (ret tt)) (pressed "date") idle =
    (Ok tt,
     sent [AnswerCallbackQuery "q1" (Some "Today's date: 2024-01-01")]
       (called [get_current_date_call] idle)).
Proof.
  split; [reflexivity|]. split.
  - destruct (clock_press_outcomes (Raise clock_down) (Ok "2024-01-01")
                example_details (process_file_upload_spec (ret tt))
                (pressed "time") idle eq_refl) as (H & _).
    exact (H eq_refl).
  - destruct (clock_press_outcomes (Ok "12:00") (Ok "2024-01-01")
                example_details (process_file_upload_spec (ret tt))
                (pressed "date") idle eq_refl) as (_ & H).
    exact (H eq_refl).
Defined.

End ConversationSpec.


(** * Properties of the upload command of src/utils.py *)
Module UploaderSpec.
Import Uploader.

Lemma split_once_no_blank (s : string) : has_blank s = false → split_once s = [s].
Proof.
  induction s as [|c s IH]; simpl; [reflexivity|].
  destruct (c =? " ")%char; simpl; [discriminate|].
  intros H. rewrite (IH H). reflexivity.
Qed.


Lemma split_once_has_blank (s : string) :
  has_blank s = true → ∃ cmd arg, split_once s = [cmd; arg].
Proof.
  induction s as [|c s IH]; simpl; [discriminate|].
  destruct (c =? " ")%char; simpl; [eauto|].
  intros H. destruct (IH H) as (cmd & arg & ->). eauto.
Qed.

(** X8.  The upload command without an argument (a text with no blank in
    it): nothing is started and no document is sent; the IndexError of
    reading the missing argument is printed and sent to the chat as
    "Error uploading file: list index out of range" (transport up). *)
Theorem upload_file_without_argument (m : Message) (w : World) :
  has_blank (text m) = false →
  faults w = [] →
  upload_file m w =
    (Ok tt,
     {| delivered :=
          delivered w ++
          [SendMessage (chat_id m) "Error uploading file: list index out of range"];
        printed := printed w ++ ["Error uploading file: list index out of range"];
        faults := [] |}).
Proof.
  intros Hb Hf. destruct w as [d p f]; simpl in Hf; subst f.
  unfold upload_file, upload_file_body, try_except, bind, lift.
  rewrite (split_once_no_blank _ Hb). reflexivity.
Qed.

Lemma upload_file_without_argument_witness :
  has_blank "/upload" = false
  ∧ upload_file {| chat_id := 7; text := "/upload" |} quiet =
    (Ok tt,
     {| delivered :=
          [SendMessage 7 "Error uploading file: list index out of range"];
        printed := ["Error uploading file: list index out of range"];
        faults := [] |}).
Proof.
  split; [reflexivity|].
  exact (upload_file_without_argument {| chat_id := 7; text := "/upload" |}
           quiet eq_refl eq_refl).
Defined.



(** X10.  When sending the document fails, the chat has already been told
    that the upload is starting; the exception is then printed and sent as
    "Error uploading file: ..." and the handler returns normally. *)
Theorem upload_file_fails_after_start (m : Message) (w : World) (e : exn)
    (later : fault_script) :
  has_blank (text m) = true →
  faults w = None :: Some e :: later →
  deliverable later →
  upload_file m w =
    (Ok tt,
     {| delivered :=
          delivered w ++
          [SendMessage (chat_id m) "Starting file upload...";
           SendMessage (chat_id m) ("Error uploading file: " +:+ exn_str e)];
        printed := printed w ++ ["Error uploading file: " +:+ exn_str e];
        faults := tail later |}).
Proof.
  intros Hb Hf Hl. destruct w as [d p f]; simpl in Hf; subst f.
  destruct (split_once_has_blank _ Hb) as (cmd & arg & Hs).
  unfold upload_file, upload_file_body, try_except, bind, lift.
  rewrite Hs. unfold transport, print. simpl.
  destruct later as [|[e'|] later]; simpl in *;
    [|destruct Hl|]; rewrite <- ?app_assoc; reflexivity.
Qed.

Lemma upload_file_fails_after_start_witness :
  has_blank "/upload http://x/file.zip" = true
  ∧ upload_file {| chat_id := 7; text := "/upload http://x/file.zip" |}
      {| delivered := []; printed := [];
         faults := [None; Some (OtherError "file not found")] |} =
    (Ok tt,
     {| delivered :=
          [SendMessage 7 "Starting file upload...";
           SendMessage 7 "Error uploading file: file not found"];
        printed := ["Error uploading file: file not found"];
        faults := [] |}).
Proof.
  split; [reflexivity|].
  exact (upload_file_fails_after_start
           {| chat_id := 7; text := "/upload http://x/file.zip" |}
           {| delivered := []; printed := [];
              faults := [None; Some (OtherError "file not found")] |}
           (OtherError "file not found") [] eq_refl eq_refl I).
Defined.

End UploaderSpec.


(** * More properties of src/main.py *)
Module BloggerDispatchSpec.
Import Blogger BloggerDispatch.

(** *** How the frame conditions compose *)

Lemma respects_bind (R : World → World → Prop) {A B}
    (c : M World A) (k : A → M World B) :
  (∀ a b d, R a b → R b d → R a d) →
  respects R c → (∀ a, respects R (k a)) → respects R (bind c k).
Proof.
  intros HT Hc Hk w r w'. unfold bind.
  destruct (c w) as [[a|e] w1] eqn:E.
  - intros Hka. exact (HT _ _ _ (Hc _ _ _ E) (Hk _ _ _ _ Hka)).
  - intros [= <- <-]. exact (Hc _ _ _ E).
Qed.

Lemma respects_try_except_HttpError (R : World → World → Prop) {A}
    (body : M World A) (handler : exn → M World A) :
  (∀ a b d, R a b → R b d → R a d) →
  respects R body → (∀ e, respects R (handler e)) →
  respects R (try_except_HttpError body handler).
Proof.
  intros HT Hb Hh w r w'. unfold try_except_HttpError.
  destruct (body w) as [[a|e] w1] eqn:E.
  - intros [= <- <-]. exact (Hb _ _ _ E).
  - destruct (is_HttpError e).
    + intros He. exact (HT _ _ _ (Hb _ _ _ E) (Hh _ _ _ _ He)).
    + intros [= <- <-]. exact (Hb _ _ _ E).
Qed.



Lemma nothing_said_trans (a b d : World) :
  nothing_said a b → nothing_said b d → nothing_said a d.
Proof. unfold nothing_said. intros (?&?&?) (?&?&?). repeat split; congruence. Qed.

(** One primitive step: unfold it and read the two worlds off. *)
Ltac step_world :=
  let w := fresh "w" in
  let r := fresh "r" in
  let w' := fresh "w'" in
  let H := fresh "H" in
  intros w r w' H;
  cbv beta delta [transport reply_text reply_html call_adapter lift ret raise
                  get_creds put_creds pickle_dump_to user_data_get user_data_set
                  logger_error logger_warning global_name] in H;
  repeat case_match; simplify_eq;
  first [ reflexivity
        | (eexists; simpl; first [ symmetry; apply app_nil_r | reflexivity ])
        | (repeat split; reflexivity) ].

Ltac respect HT :=
  repeat first
    [ apply (respects_bind _ _ _ HT); [|intros ?]
    | apply (respects_try_except_HttpError _ _ _ HT); [|intros ?]
    | match goal with
      | |- respects _ (if ?b then _ else _) => destruct b
      | |- respects _ (match ?x with _ => _ end) => destruct x
      end
    | solve [step_world] ].

(** *** Authentication *)

(** [authenticate_google_account] says nothing in the chat and leaves the
    per-user store alone, however it ends. *)
Lemma authenticate_google_account_says_nothing
    (refresh : Credentials → result Credentials)
    (run_local_server : result Credentials)
    (build : option Credentials → result Service) :
  respects nothing_said (authenticate_google_account refresh run_local_server build).
Proof. unfold authenticate_google_account. respect nothing_said_trans. Qed.

(** X11.  When the stored credential is missing, or invalid and not
    refreshable, and the interactive flow returns a credential, that
    credential is written to token.pickle before [build] is called, and it
    stays written whatever [build] does: a service is returned when [build]
    returns one, None (after one log line) when it raises an HttpError, and
    any other exception leaves the function. *)
Theorem flow_credential_persisted_whatever_build_does
    (refresh : Credentials → result Credentials)
    (run_local_server : result Credentials)
    (build : option Credentials → result Service)
    (w : World) (c : Credentials) :
  match loaded_creds w with
  | Some c0 => valid c0 = false
               ∧ expired c0 && opt_str_truthy (refresh_token c0) = false
  | None => True
  end →
  run_local_server = Ok c →
  trace (authenticate_google_account refresh run_local_server build w).2
    = trace w ++ [run_local_server_call; pickle_dump "token.pickle" (Some c);
                  build_call (Some c)]
  ∧ disk (authenticate_google_account refresh run_local_server build w).2
      !! "token.pickle" = Some (Some c)
  ∧ creds (authenticate_google_account refresh run_local_server build w).2
    = Some c
  ∧ (authenticate_google_account refresh run_local_server build w).1
    = match build (Some c) with
      | Ok service => Ok (Some service)
      | Raise e => if is_HttpError e then Ok None else Raise e
      end
  ∧ log (authenticate_google_account refresh run_local_server build w).2
    = log w ++ match build (Some c) with
               | Raise (HttpError rendered) => ["An error occurred: " +:+ rendered]
               | _ => []
               end.
Proof.
  intros Hc Hr.
  unfold authenticate_google_account, bind, loaded_creds in *.
  destruct w as [rs l t ud cr d f]; simpl in *.
  assert (Hflow : ∀ w0 : World,
            trace w0 = t → disk w0 = d → log w0 = l →
            let r := bind
                       (bind
                          (bind (call_adapter run_local_server_call run_local_server)
                             (fun c' => put_creds (Some c')))
                          (fun _ => bind get_creds
                                      (fun c => pickle_dump_to "token.pickle" c)))
                       (fun _ => bind get_creds
                          (fun c =>
                             try_except_HttpError
                               (bind (call_adapter (build_call c) (build c))
                                  (fun service => ret (Some service)))
                               (fun err =>
                                  bind (logger_error
                                          ("An error occurred: " +:+ exn_str err))
                                    (fun _ => ret None)))) w0 in
            trace r.2 = t ++ [run_local_server_call;
                              pickle_dump "token.pickle" (Some c);
                              build_call (Some c)]
            ∧ disk r.2 !! "token.pickle" = Some (Some c)
            ∧ creds r.2 = Some c
            ∧ r.1 = match build (Some c) with
                    | Ok service => Ok (Some service)
                    | Raise e => if is_HttpError e then Ok None else Raise e
                    end
            ∧ log r.2 = l ++ match build (Some c) with
                             | Raise (HttpError rendered) =>
                                 ["An error occurred: " +:+ rendered]
                             | _ => []
                             end).
  { intros w0 <- <- <-.
    unfold bind, call_adapter, put_creds, get_creds, pickle_dump_to,
      try_except_HttpError, ret, logger_error.
    rewrite Hr. simpl.
    destruct (build (Some c)) as [service|[]]; simpl;
      rewrite <- !app_assoc, lookup_insert_eq, ?app_nil_r; auto. }
  destruct (d !! "token.pickle") as [stored|] eqn:Hd; simpl;
    [destruct stored as [c0|] | destruct cr as [c0|]]; simpl.
  - destruct Hc as [Hv He]. rewrite Hv, He. simpl. apply Hflow; reflexivity.
  - apply Hflow; reflexivity.
  - destruct Hc as [Hv He]. rewrite Hv, He. simpl. apply Hflow; reflexivity.
  - apply Hflow; reflexivity.
Qed.

(** First start, and Google refuses to build the service. *)
Lemma flow_credential_persisted_whatever_build_does_witness :
  loaded_creds started = None
  ∧ disk (authenticate_google_account example_refresh (Ok fresh)
            (fun _ => Raise (HttpError "<HttpError 503>")) started).2
      !! "token.pickle" = Some (Some fresh)
  ∧ (authenticate_google_account example_refresh (Ok fresh)
       (fun _ => Raise (HttpError "<HttpError 503>")) started).1 = Ok None.
Proof.
  split; [reflexivity|].
  destruct (flow_credential_persisted_whatever_build_does example_refresh
              (Ok fresh) (fun _ => Raise (HttpError "<HttpError 503>"))
              started fresh I eq_refl) as (_ & Hd & _ & Hr & _).
  split; [exact Hd|exact Hr].
Defined.

(** X12.  A valid credential is reused as it is, the pickled one taking
    precedence over the one in memory: the only thing
    [authenticate_google_account] then does outside the process is to call
    [build] with it.  No refresh, no interactive flow, and the token file
    is not rewritten. *)
Theorem valid_credential_is_reused
    (refresh : Credentials → result Credentials)
    (run_local_server : result Credentials)
    (build : option Credentials → result Service)
    (w : World) (c : Credentials) :
  loaded_creds w = Some c →
  valid c = true →
  trace (authenticate_google_account refresh run_local_server build w).2
    = trace w ++ [build_call (Some c)]
  ∧ disk (authenticate_google_account refresh run_local_server build w).2
    = disk w
  ∧ creds (authenticate_google_account refresh run_local_server build w).2
    = Some c
  ∧ (authenticate_google_account refresh run_local_server build w).1
    = match build (Some c) with
      | Ok service => Ok (Some service)
      | Raise e => if is_HttpError e then Ok None else Raise e
      end.
Proof.
  intros Hl Hv.
  unfold authenticate_google_account, bind, loaded_creds in *.
  destruct w as [rs l t ud cr d f]; simpl in *.
  destruct (d !! "token.pickle") as [stored|] eqn:Hd; simpl; subst; simpl;
    rewrite Hv; simpl;
    unfold call_adapter, try_except_HttpError, bind, logger_error, ret; simpl;
    destruct (build (Some c)) as [service|[]]; simpl; auto.
Qed.

(** The pickled credential is valid, the one in memory is not. *)
Lemma valid_credential_is_reused_witness :
  loaded_creds (set_creds (Some (stale "t0" "0")) authenticated) = Some fresh
  ∧ valid fresh = true
  ∧ trace (authenticate_google_account example_refresh (Ok fresh) example_build
             (set_creds (Some (stale "t0" "0")) authenticated)).2
    = [build_call (Some fresh)]
  ∧ creds (authenticate_google_account example_refresh (Ok fresh) example_build
             (set_creds (Some (stale "t0" "0")) authenticated)).2
    = Some fresh.
Proof.
  split; [reflexivity|]. split; [reflexivity|].
  destruct (valid_credential_is_reused example_refresh (Ok fresh) example_build
              (set_creds (Some (stale "t0" "0")) authenticated) fresh
              eq_refl eq_refl) as (Ht & _ & Hc & _).
  split; [exact Ht|exact Hc].
Defined.

(** X13.  [authenticate] always sends the redirect notice first and then
    follows [authenticate_google_account] (transport up).  A service:
    "Authentication successful!" is sent and the service is stored under
    'service' for the user of the update, every other user's data staying
    as it was.  None: "Authentication failed." is sent and nothing is
    stored.  An exception: it leaves the handler, no second message is sent
    and nothing is stored. *)
Theorem authenticate_outcomes
    (refresh : Credentials → result Credentials)
    (run_local_server : result Credentials)
    (build : option Credentials → result Service)
    (u : Update) (w : World) :
  faults w = [] →
  match
    (authenticate_google_account refresh run_local_server build
       (replied [ReplyText "Redirecting to authenticate with Google. Please follow the instructions."] w)).1
  with
  | Ok (Some service) =>
      (authenticate refresh run_local_server build u w).1 = Ok tt
      ∧ replies (authenticate refresh run_local_server build u w).2
        = replies w ++
          [ReplyText "Redirecting to authenticate with Google. Please follow the instructions.";
           ReplyText "Authentication successful! You can now create and edit posts."]
      ∧ context_user_data (authenticate refresh run_local_server build u w).2 u
          !! "service" = Some service
      ∧ (∀ other,
           effective_user other ≠ effective_user u →
           context_user_data (authenticate refresh run_local_server build u w).2
             other = context_user_data w other)
  | Ok None =>
      (authenticate refresh run_local_server build u w).1 = Ok tt
      ∧ replies (authenticate refresh run_local_server build u w).2
        = replies w ++
          [ReplyText "Redirecting to authenticate with Google. Please follow the instructions.";
           ReplyText "Authentication failed. Try again later."]
      ∧ user_data (authenticate refresh run_local_server build u w).2
        = user_data w
  | Raise e =>
      (authenticate refresh run_local_server build u w).1 = Raise e
      ∧ replies (authenticate refresh run_local_server build u w).2
        = replies w ++
          [ReplyText "Redirecting to authenticate with Google. Please follow the instructions."]
      ∧ user_data (authenticate refresh run_local_server build u w).2
        = user_data w
  end.
Proof.
  intros Hf. unfold authenticate, bind, reply_text.
  rewrite (BloggerSpec.reply_up _ _ Hf).
  destruct (authenticate_google_account refresh run_local_server build
              (replied _ w)) as [[[service|]|e] w1] eqn:E;
    apply authenticate_google_account_says_nothing in E as (Hr & Hu & Hf1);
    simpl in Hr, Hu, Hf1; rewrite Hf in Hf1; simpl.
  - rewrite (BloggerSpec.reply_up _ _ Hf1). unfold user_data_set, context_user_data.
    simpl. rewrite Hr, <- app_assoc, Hu. repeat split.
    + rewrite lookup_insert_eq. simpl. apply lookup_insert_eq.
    + intros other Hne. rewrite lookup_insert_ne by congruence. reflexivity.
  - rewrite (BloggerSpec.reply_up _ _ Hf1). simpl.
    rewrite Hr, <- app_assoc, Hu. auto.
  - auto.
Qed.

(** First start: the interactive flow succeeds and the service is built. *)
Lemma authenticate_outcomes_witness :
  faults started = []
  ∧ (authenticate example_refresh (Ok fresh) example_build (says "/authenticate")
       started).1 = Ok tt
  ∧ context_user_data
      (authenticate example_refresh (Ok fresh) example_build (says "/authenticate")
         started).2 (says "/post Hello") !! "service" = Some blogger.
Proof.
  split; [reflexivity|].
  pose proof (authenticate_outcomes example_refresh (Ok fresh) example_build
                (says "/authenticate") started eq_refl) as H.
  change (authenticate_google_account example_refresh (Ok fresh) example_build
            (replied [ReplyText "Redirecting to authenticate with Google. Please follow the instructions."] started)).1
    with (Ok (Some blogger) : result (option Service)) in H.
  destruct H as (Hr & _ & Hs & _). split; [exact Hr|exact Hs].
Defined.

(** *** Looking for the draft *)

Lemma find_draft_unreadable (before after : list (gmap string string))
    (post : gmap string string) :
  no_draft before → unreadable post →
  ∃ key, (key = "title" ∨ key = "id")
         ∧ find_draft (before ++ post :: after) = Raise (KeyError key).
Proof.
  intros Hb Hu.
  induction Hb as [|p before (title & Htitle & Hne) _ IH]; simpl.
  - unfold getitem. destruct Hu as [Ht|[Ht Hi]]; rewrite Ht; [eauto|].
    simpl. rewrite Hi. eauto.
  - unfold getitem at 1. rewrite Htitle.
    apply String.eqb_neq in Hne. rewrite Hne. exact IH.
Qed.

Lemma find_draft_cons (p : gmap string string) (posts : list (gmap string string)) :
  find_draft (p :: posts) =
    match p !! "title" with
    | None => Raise (KeyError "title")
    | Some title =>
        if (title =? "Draft Post")%string then
          match p !! "id" with
          | Some i => Ok (Some i)
          | None => Raise (KeyError "id")
          end
        else find_draft posts
    end.
Proof.
  simpl. unfold getitem. destruct (p !! "title") as [title|]; [|reflexivity].
  destruct (title =? "Draft Post")%string; [|reflexivity].
  destruct (p !! "id"); reflexivity.
Qed.

(** Every list of posts is of exactly one of three kinds for the loop. *)
Lemma find_draft_trichotomy (posts : list (gmap string string)) :
  (no_draft posts ∧ find_draft posts = Ok None)
  ∨ (∃ draft post_id,
       first_draft posts draft post_id ∧ find_draft posts = Ok (Some post_id))
  ∨ (∃ before post after key,
       posts = before ++ post :: after ∧ no_draft before ∧ unreadable post
       ∧ find_draft posts = Raise (KeyError key)).
Proof.
  induction posts as [|p posts IH].
  - left. split; [constructor|reflexivity].
  - rewrite find_draft_cons.
    destruct (p !! "title") as [title|] eqn:Ht.
    + destruct (String.eqb_spec title "Draft Post") as [->|Hne].
      * destruct (p !! "id") as [i|] eqn:Hi.
        -- right; left. exists p, i. split; [|reflexivity].
           exists [], posts. repeat split; auto. constructor.
        -- right; right. exists [], p, posts, "id".
           repeat split; auto; [constructor|right; auto].
      * destruct IH as [[Hn Hf]|[(draft & i & Hd & Hf)|(before & post & after & key & -> & Hb & Hu & Hf)]].
        -- left. split; [constructor; eauto|exact Hf].
        -- right; left. exists draft, i. split; [|exact Hf].
           destruct Hd as (before & after & -> & Hb & Hdt & Hdi).
           exists (p :: before), after. repeat split; auto. constructor; eauto.
        -- right; right. exists (p :: before), post, after, key.
           repeat split; auto. constructor; eauto.
    + right; right. exists [], p, posts, "title".
      repeat split; auto; [constructor|left; auto].
Qed.

(** X14.  What the loop over the listed posts finds.  It returns no id
    exactly when every post has a title and none is titled "Draft Post";
    it returns the id of the first post titled exactly "Draft Post" exactly
    when the posts in front of it all have other titles, whatever comes
    after it; and it raises (a KeyError) exactly when, before any draft is
    found, it meets a post without a title or a "Draft Post" without an
    id. *)
Theorem find_draft_characterised (posts : list (gmap string string)) :
  (find_draft posts = Ok None ↔ no_draft posts)
  ∧ (∀ post_id,
       find_draft posts = Ok (Some post_id) ↔
       ∃ draft, first_draft posts draft post_id)
  ∧ ((∃ e, find_draft posts = Raise e) ↔
     ∃ before post after,
       posts = before ++ post :: after ∧ no_draft before ∧ unreadable post).
Proof.
  split; [|split].
  - split; [|apply BloggerSpec.find_draft_no_draft].
    intros Hf.
    destruct (find_draft_trichotomy posts)
      as [[Hn _]|[(d & i & _ & Hf')|(b & p & a & k & _ & _ & _ & Hf')]];
      [exact Hn|congruence|congruence].
  - intros post_id. split.
    + intros Hf.
      destruct (find_draft_trichotomy posts)
        as [[_ Hf']|[(d & i & Hd & Hf')|(b & p & a & k & _ & _ & _ & Hf')]];
        [congruence| |congruence].
      exists d. congruence.
    + intros (draft & Hd). exact (BloggerSpec.find_draft_first_draft _ _ _ Hd).
  - split.
    + intros (e & Hf).
      destruct (find_draft_trichotomy posts)
        as [[_ Hf']|[(d & i & _ & Hf')|(b & p & a & k & Hp & Hb & Hu & _)]];
        [congruence|congruence|].
      exists b, p, a. auto.
    + intros (before & post & after & -> & Hb & Hu).
      destruct (find_draft_unreadable before after post Hb Hu) as (key & _ & Hf).
      eauto.
Qed.

(** *** What [post_to_blogger] does not catch, and does not touch *)

(** X15.  Only HttpError is caught.  When a listed post in front of any
    draft has no 'title', the KeyError leaves [post_to_blogger] right after
    the list call and the handler sends no reply.  When the response to the
    update has no 'url', the update has been made, and again the KeyError
    leaves the handler and no reply is sent. *)
Theorem post_to_blogger_key_error_escapes
    (posts_list : Service → string → result PostList)
    (posts_get : Service → string → string → result (gmap string string))
    (posts_update :
       Service → string → string → gmap string string → result (gmap string string))
    (posts_insert : Service → string → gmap string string → result (gmap string string))
    (u : Update) (w : World) (service : Service) :
  context_user_data w u !! "service" = Some service →
  post_body (text u) ≠ "" →
  (∀ posts before post after,
     posts_list service blog_id = Ok posts →
     items posts = Some (before ++ post :: after) →
     no_draft before →
     post !! "title" = None →
     post_to_blogger posts_list posts_get posts_update posts_insert u w =
       (Raise (KeyError "title"), traced [posts_list_call blog_id] w))
  ∧ (∀ posts listed draft post_id post updated,
       posts_list service blog_id = Ok posts →
       items posts = Some listed →
       first_draft listed draft post_id →
       post_id ≠ "" →
       posts_get service blog_id post_id = Ok post →
       posts_update service blog_id post_id
         (<["content" := post_body (text u)]> post) = Ok updated →
       updated !! "url" = None →
       post_to_blogger posts_list posts_get posts_update posts_insert u w =
         (Raise (KeyError "url"),
          traced [posts_list_call blog_id;
                  posts_get_call blog_id post_id;
                  posts_update_call blog_id post_id
                    (<["content" := post_body (text u)]> post)] w)).
Proof.
  intros Hs Hbody.
  assert (Hrun :
            post_to_blogger posts_list posts_get posts_update posts_insert u w =
            try_except_HttpError
              (post_to_blogger_try posts_list posts_get posts_update posts_insert
                 service (post_body (text u)))
              (fun error => reply_text ("An error occurred: " +:+ exn_str error)) w).
  { unfold post_to_blogger, bind, user_data_get. rewrite Hs. simpl.
    rewrite (BloggerSpec.str_truthy_nonempty _ Hbody). reflexivity. }
  rewrite Hrun. clear Hrun.
  unfold try_except_HttpError, post_to_blogger_try, bind, call_adapter, lift.
  split.
  - intros posts before post after Hl Hi Hb Ht. rewrite Hl, Hi. simpl.
    assert (Hf : find_draft (before ++ post :: after) = Raise (KeyError "title")).
    { clear Hi. induction Hb as [|p before (title & Htitle & Hne) _ IH]; simpl.
      - unfold getitem. rewrite Ht. reflexivity.
      - unfold getitem at 1. rewrite Htitle.
        apply String.eqb_neq in Hne. rewrite Hne. exact IH. }
    rewrite Hf. reflexivity.
  - intros posts listed draft post_id post updated Hl Hi Hd Hne Hg Hu Hurl.
    rewrite Hl, Hi. simpl.
    rewrite (BloggerSpec.find_draft_first_draft _ _ _ Hd). simpl.
    rewrite (BloggerSpec.str_truthy_nonempty _ Hne), Hg, Hu.
    unfold getitem. rewrite Hurl. simpl. f_equal.
    unfold traced. destruct w; simpl. rewrite <- !app_assoc. reflexivity.
Qed.

(** A blog whose first listed post has no title. *)
Lemma post_to_blogger_key_error_escapes_witness :
  context_user_data authenticated (says "/post Hello") !! "service" = Some blogger
  ∧ post_to_blogger
      (fun _ _ => Ok {| items := Some [delete "title" (post "7" "Holiday" "sun" "http://b/7");
                                        post "9" "Draft Post" "old" "http://b/9"] |})
      example_posts_get example_posts_update example_posts_insert
      (says "/post Hello") authenticated =
    (Raise (KeyError "title"), traced [posts_list_call blog_id] authenticated).
Proof.
  split; [reflexivity|].
  assert (Hne : post_body (text (says "/post Hello")) ≠ "") by discriminate.
  destruct (post_to_blogger_key_error_escapes
              (fun _ _ => Ok {| items := Some [delete "title" (post "7" "Holiday" "sun" "http://b/7");
                                                post "9" "Draft Post" "old" "http://b/9"] |})
              example_posts_get example_posts_update example_posts_insert
              (says "/post Hello") authenticated blogger eq_refl Hne) as (H & _).
  exact (H _ [] _ [post "9" "Draft Post" "old" "http://b/9"] eq_refl eq_refl
           (List.Forall_nil _) eq_refl).
Defined.


(** *** The six characters *)




(** X18.  The /post command posts its argument verbatim.  For a text that
    is "/post " followed by a non-empty content, from an authenticated
    user, on a blog that lists no "Draft Post", the dispatcher runs
    [post_to_blogger], which inserts a post whose content is exactly that
    content and replies with the new post's URL (transport up). *)
Theorem post_command_posts_its_argument
    (refresh : Credentials → result Credentials)
    (run_local_server : result Credentials)
    (build : option Credentials → result Service)
    (posts_list : Service → string → result PostList)
    (posts_get : Service → string → string → result (gmap string string))
    (posts_update :
       Service → string → string → gmap string string → result (gmap string string))
    (posts_insert : Service → string → gmap string string → result (gmap string string))
    (u : Update) (w : World) (service : Service) (content : string)
    (posts : PostList) (created : gmap string string) (url : string) :
  text u = "/post " +:+ content →
  content ≠ "" →
  context_user_data w u !! "service" = Some service →
  faults w = [] →
  posts_list service blog_id = Ok posts →
  no_draft (default [] (items posts)) →
  posts_insert service blog_id (new_post content) = Ok created →
  created !! "url" = Some url →
  new_post content !! "content" = Some content
  ∧ dispatch refresh run_local_server build posts_list posts_get posts_update
      posts_insert u w =
    (Ok tt,
     replied [ReplyText ("New post created: " +:+ url)]
       (traced [posts_list_call blog_id;
                posts_insert_call blog_id (new_post content)] w)).
Proof.
  intros Ht Hne Hs Hf Hl Hn Hins Hurl. split; [reflexivity|].
  unfold dispatch, handlers, dispatch_in, filter_matches. rewrite Ht. simpl.
  unfold post_to_blogger, bind, user_data_get. rewrite Hs. simpl.
  rewrite Ht. change (post_body ("/post " +:+ content)) with content.
  rewrite (BloggerSpec.str_truthy_nonempty _ Hne). simpl.
  unfold try_except_HttpError, post_to_blogger_try, bind, call_adapter, lift,
    reply_text.
  rewrite Hl, (BloggerSpec.find_draft_no_draft _ Hn). simpl. rewrite Hins.
  unfold getitem. rewrite Hurl.
  rewrite BloggerSpec.reply_up by (destruct w; assumption). f_equal.
  unfold replied, traced. destruct w; simpl. rewrite <- !app_assoc. reflexivity.
Qed.

(** A content with blanks and a slash in it. *)
Lemma post_command_posts_its_argument_witness :
  text (says "/post My first /post") = "/post " +:+ "My first /post"
  ∧ dispatch example_refresh (Ok fresh) example_build empty_posts_list
      example_posts_get example_posts_update example_posts_insert
      (says "/post My first /post") authenticated =
    (Ok tt,
     replied [ReplyText "New post created: http://b/11"]
       (traced [posts_list_call blog_id;
                posts_insert_call blog_id (new_post "My first /post")]
          authenticated)).
Proof.
  split; [reflexivity|].
  assert (Hne : "My first /post" ≠ "") by discriminate.
  exact (proj2 (post_command_posts_its_argument example_refresh (Ok fresh)
                  example_build empty_posts_list example_posts_get
                  example_posts_update example_posts_insert
                  (says "/post My first /post") authenticated blogger
                  "My first /post" {| items := None |}
                  (<["id" := "11"]> (<["url" := "http://b/11"]>
                     (new_post "My first /post")))
                  "http://b/11" eq_refl Hne eq_refl eq_refl eq_refl
                  (List.Forall_nil _) eq_refl eq_refl)).
Defined.

(** X19.  A "Draft Post" whose id is the empty string is found by the loop
    but not updated: the empty id is falsy, so the handler takes the create
    branch, inserts a new post and replies with its URL, and the draft is
    neither fetched nor updated (transport up). *)
Theorem draft_with_empty_id_is_not_updated
    (posts_list : Service → string → result PostList)
    (posts_get : Service → string → string → result (gmap string string))
    (posts_update :
       Service → string → string → gmap string string → result (gmap string string))
    (posts_insert : Service → string → gmap string string → result (gmap string string))
    (u : Update) (w : World) (service : Service)
    (posts : PostList) (listed : list (gmap string string))
    (draft created : gmap string string) (url : string) :
  context_user_data w u !! "service" = Some service →
  post_body (text u) ≠ "" →
  faults w = [] →
  posts_list service blog_id = Ok posts →
  items posts = Some listed →
  first_draft listed draft "" →
  posts_insert service blog_id (new_post (post_body (text u))) = Ok created →
  created !! "url" = Some url →
  post_to_blogger posts_list posts_get posts_update posts_insert u w =
    (Ok tt,
     replied [ReplyText ("New post created: " +:+ url)]
       (traced [posts_list_call blog_id;
                posts_insert_call blog_id (new_post (post_body (text u)))] w)).
Proof.
  intros Hs Hbody Hf Hl Hi Hd Hins Hurl.
  unfold post_to_blogger, bind, user_data_get. rewrite Hs. simpl.
  rewrite (BloggerSpec.str_truthy_nonempty _ Hbody). simpl.
  unfold try_except_HttpError, post_to_blogger_try, bind, call_adapter, lift,
    reply_text.
  rewrite Hl, Hi. simpl. rewrite (BloggerSpec.find_draft_first_draft _ _ _ Hd).
  simpl. rewrite Hins. unfold getitem. rewrite Hurl.
  rewrite BloggerSpec.reply_up by (destruct w; assumption). f_equal.
  unfold replied, traced. destruct w; simpl. rewrite <- !app_assoc. reflexivity.
Qed.

Lemma draft_with_empty_id_is_not_updated_witness :
  first_draft [post "" "Draft Post" "old" "http://b/0"]
    (post "" "Draft Post" "old" "http://b/0") ""
  ∧ post_to_blogger
      (fun _ _ => Ok {| items := Some [post "" "Draft Post" "old" "http://b/0"] |})
      example_posts_get example_posts_update example_posts_insert
      (says "/post Hello") authenticated =
    (Ok tt,
     replied [ReplyText "New post created: http://b/11"]
       (traced [posts_list_call blog_id;
                posts_insert_call blog_id (new_post "Hello")] authenticated)).
Proof.
  assert (Hd : first_draft [post "" "Draft Post" "old" "http://b/0"]
                 (post "" "Draft Post" "old" "http://b/0") "").
  { exists [], []. repeat split. constructor. }
  split; [exact Hd|].
  assert (Hne : post_body (text (says "/post Hello")) ≠ "") by discriminate.
  exact (draft_with_empty_id_is_not_updated
           (fun _ _ => Ok {| items := Some [post "" "Draft Post" "old" "http://b/0"] |})
           example_posts_get example_posts_update example_posts_insert
           (says "/post Hello") authenticated blogger _ _ _
           (<["id" := "11"]> (<["url" := "http://b/11"]> (new_post "Hello")))
           "http://b/11" eq_refl Hne eq_refl eq_refl eq_refl Hd eq_refl eq_refl).
Defined.

(** *** The error handler *)

Lemma stale_credential_raises_NameError
    (refresh : Credentials → result Credentials)
    (run_local_server : result Credentials)
    (build : option Credentials → result Service)
    (tok refresh_tok : string) (w : World) :
  disk w !! "token.pickle" = Some (Some (stale tok refresh_tok)) →
  authenticate_google_account refresh run_local_server build w
  = (Raise (NameError "Request"), set_creds (Some (stale tok refresh_tok)) w).
Proof.
  intros Hd. unfold authenticate_google_account, bind.
  rewrite Hd. cbn [get_creds creds set_creds].
  cbn [valid expired refresh_token stale negb andb opt_str_truthy str_truthy].
  rewrite BloggerSpec.Request_is_unbound. reflexivity.
Qed.

(** X20.  /authenticate with a stored credential that is invalid, expired
    and refreshable, as the user sees it with the error handler of main.py
    registered: the redirect notice, then "An error occurred: name
    'Request' is not defined".  Neither "Authentication successful!" nor
    "Authentication failed." is sent, one warning is logged, no refresh or
    build is called and no service is stored (transport up). *)
Theorem stale_credential_ends_in_error_reply
    (render_update : Update → string)
    (refresh : Credentials → result Credentials)
    (run_local_server : result Credentials)
    (build : option Credentials → result Service)
    (posts_list : Service → string → result PostList)
    (posts_get : Service → string → string → result (gmap string string))
    (posts_update :
       Service → string → string → gmap string string → result (gmap string string))
    (posts_insert : Service → string → gmap string string → result (gmap string string))
    (u : Update) (w : World) (tok refresh_tok : string) :
  text u = "/authenticate" →
  disk w !! "token.pickle" = Some (Some (stale tok refresh_tok)) →
  faults w = [] →
  process_update render_update refresh run_local_server build posts_list
    posts_get posts_update posts_insert u w =
    (Ok tt,
     replied
       [ReplyText "Redirecting to authenticate with Google. Please follow the instructions.";
        ReplyText "An error occurred: name 'Request' is not defined"]
       (set_log
          (log w ++ ["Update " +:+ render_update u +:+
                     " caused error name 'Request' is not defined"])
          (set_creds (Some (stale tok refresh_tok)) w))).
Proof.
  intros Ht Hd Hf.
  unfold process_update, try_except, dispatch, handlers, dispatch_in,
    filter_matches.
  rewrite Ht. simpl.
  unfold authenticate, bind, reply_text.
  rewrite (BloggerSpec.reply_up _ _ Hf).
  rewrite (stale_credential_raises_NameError _ _ _ tok refresh_tok)
    by (destruct w; exact Hd).
  unfold error, bind, logger_warning, reply_text.
  rewrite BloggerSpec.reply_up by (destruct w; exact Hf).
  f_equal. unfold replied. destruct w; simpl. rewrite <- app_assoc. reflexivity.
Qed.

Lemma stale_credential_ends_in_error_reply_witness :
  disk (set_disk {[ "token.pickle" := Some (stale "t0" "0") ]} started)
    !! "token.pickle" = Some (Some (stale "t0" "0"))
  ∧ replies
      (process_update (fun _ => "<update>") example_refresh (Ok fresh)
         example_build example_posts_list example_posts_get example_posts_update
         example_posts_insert (says "/authenticate")
         (set_disk {[ "token.pickle" := Some (stale "t0" "0") ]} started)).2
    = [ReplyText "Redirecting to authenticate with Google. Please follow the instructions.";
       ReplyText "An error occurred: name 'Request' is not defined"].
Proof.
  assert (Hd : disk (set_disk {[ "token.pickle" := Some (stale "t0" "0") ]} started)
                 !! "token.pickle" = Some (Some (stale "t0" "0")))
    by reflexivity.
  split; [exact Hd|].
  rewrite (stale_credential_ends_in_error_reply (fun _ => "<update>")
             example_refresh (Ok fresh) example_build example_posts_list
             example_posts_get example_posts_update example_posts_insert
             (says "/authenticate")
             (set_disk {[ "token.pickle" := Some (stale "t0" "0") ]} started)
             "t0" "0" eq_refl Hd eq_refl).
  reflexivity.
Defined.

End BloggerDispatchSpec.
